(** * hwilib/trezori.py: PSBT signing through a Trezor device

    A shallow embedding of [TxAPIPSBT.get_tx] and [TrezorClient.sign_tx]
    and the properties of the request builder, the previous-transaction
    resolver and the signature merge loop. *)

From Stdlib Require Import ZArith Strings.Byte Ascii.
From stdpp Require Import base option list countable gmap strings.

Open Scope Z_scope.

(** ** Python values *)

(** [bytes] objects. *)
Notation bytes := (list byte).

#[global] Instance byte_eq_dec : EqDecision byte := Byte.byte_eq_dec.
#[global] Instance byte_countable : Countable byte :=
  inj_countable Byte.to_N Byte.of_N Byte.of_to_N.

(** The exceptions that can leave the two functions. [ExternalError] stands
    for whatever the collaborators (trezorlib, the other hwilib modules)
    raise themselves. *)
Inductive exn : Type :=
  | TypeError (msg : string)
  | ValueError (msg : string)
  | IndexError (msg : string)
  | UnboundLocalError (var : string)
  | BinasciiError (msg : string)
  | KeyError
  | ExternalError (msg : string).

Inductive result (A : Type) : Type :=
  | Ok (a : A)
  | Raise (e : exn).
Arguments Ok {A} a.
Arguments Raise {A} e.

#[global] Instance result_ret : MRet result := fun _ a => Ok a.
#[global] Instance result_bind : MBind result := fun _ _ f m =>
  match m with
  | Ok a => f a
  | Raise e => Raise e
  end.

Definition is_Ok {A} (r : result A) : bool :=
  match r with Ok _ => true | Raise _ => false end.

(** [for x in l: f(x)] collecting the values, stopping at the first raise. *)
Fixpoint for_each {A B} (f : A -> result B) (l : list A) : result (list B) :=
  match l with
  | [] => Ok []
  | x :: l' => y ← f x; ys ← for_each f l'; Ok (y :: ys)
  end.

(** [l[i]] with Python's negative indices. *)
Definition py_index {A} (l : list A) (i : Z) : result A :=
  let len := Z.of_nat (length l) in
  let j := if i <? 0 then i + len else i in
  if (j <? 0) || (len <=? j) then Raise (IndexError "list index out of range")
  else match l !! Z.to_nat j with
       | Some x => Ok x
       | None => Raise (IndexError "list index out of range")
       end.

Arguments py_index : simpl never.

(** [t[i]] on a tuple: as on a list, but the exception names the tuple. *)
Definition py_tuple_index {A} (t : list A) (i : Z) : result A :=
  let len := Z.of_nat (length t) in
  let j := if i <? 0 then i + len else i in
  if (j <? 0) || (len <=? j) then Raise (IndexError "tuple index out of range")
  else match t !! Z.to_nat j with
       | Some x => Ok x
       | None => Raise (IndexError "tuple index out of range")
       end.

(** [l[lo:hi]] for constant non-negative bounds, [l[lo:]] and [l[::-1]]. *)
Definition py_slice {A} (lo hi : nat) (l : list A) : list A :=
  take (hi - lo) (drop lo l).
Definition py_slice_from {A} (lo : nat) (l : list A) : list A := drop lo l.
Definition py_reversed {A} (l : list A) : list A := reverse l.

(** [l.remove(x)]: drops the first element equal to [x]. *)
Fixpoint list_remove `{EqDecision A} (x : A) (l : list A) : result (list A) :=
  match l with
  | [] => Raise (ValueError "list.remove(x): x not in list")
  | y :: l' => if decide (y = x) then Ok l'
               else l'' ← list_remove x l'; Ok (y :: l'')
  end.

(** [binascii.unhexlify] on a [str]. *)
Definition hex_digit (c : ascii) : option N :=
  let n := N_of_ascii c in
  if ((48 <=? n) && (n <=? 57))%N then Some (n - 48)%N
  else if ((97 <=? n) && (n <=? 102))%N then Some (n - 87)%N
  else if ((65 <=? n) && (n <=? 70))%N then Some (n - 55)%N
  else None.

Fixpoint unhex_pairs (s : string) : result bytes :=
  match s with
  | EmptyString => Ok []
  | String a (String b s') =>
      match hex_digit a, hex_digit b with
      | Some h, Some l =>
          match Byte.of_N (16 * h + l) with
          | Some x => rest ← unhex_pairs s'; Ok (x :: rest)
          | None => Raise (BinasciiError "Non-hexadecimal digit found")
          end
      | _, _ => Raise (BinasciiError "Non-hexadecimal digit found")
      end
  | String _ EmptyString => Raise (BinasciiError "Odd-length string")
  end.

Definition unhexlify (s : string) : result bytes :=
  if Nat.odd (String.length s) then Raise (BinasciiError "Odd-length string")
  else unhex_pairs s.

(** ** The PSBT data model (hwilib/serializations.py objects, as the two
    functions read them) *)

Record COutPoint := { hash : Z; n : Z }.
Record CTxIn := { prevout : COutPoint; scriptSig : bytes; nSequence : Z }.
Record CTxOut := { nValue : Z; scriptPubKey : bytes }.
Record CTransaction := {
  nVersion : Z;
  vin : list CTxIn;
  vout : list CTxOut;
  nLockTime : Z;
  sha256 : Z
}.

(** [hd_keypaths] is a dict from public key to a tuple
    [(fingerprint, index, index, ...)]; it is kept as an association list in
    insertion order because the code takes [list(keys())[0]].
    [partial_sigs] is a dict from public key to signature. *)
Record PartiallySignedInput := {
  non_witness_utxo : option CTransaction;
  witness_utxo : option CTxOut;
  hd_keypaths : list (bytes * list Z);
  partial_sigs : gmap bytes bytes
}.

Record PSBT := { tx : CTransaction; inputs : list PartiallySignedInput }.

(** [d[k]] on an insertion-ordered dict. *)
Fixpoint dict_get {V} (d : list (bytes * V)) (k : bytes) : result V :=
  match d with
  | [] => Raise KeyError
  | (k', v) :: d' => if decide (k' = k) then Ok v else dict_get d' k
  end.

Definition dict_keys {V} (d : list (bytes * V)) : list bytes := d.*1.

(** ** trezorlib messages *)

Inductive InputScriptType :=
  | SPENDADDRESS | SPENDMULTISIG | EXTERNAL | SPENDWITNESS | SPENDP2SHWITNESS.
Inductive OutputScriptType :=
  | PAYTOADDRESS | PAYTOSCRIPTHASH | PAYTOMULTISIG | PAYTOOPRETURN
  | PAYTOWITNESS | PAYTOP2SHWITNESS.

(** Fields that some path leaves unset are options; [None] is "unset". *)
Record TxInputType := {
  address_n : option (list Z);
  prev_hash : bytes;
  prev_index : Z;
  script_sig : option bytes;
  sequence : Z;
  script_type : option InputScriptType;
  amount : option Z
}.

Record TxOutputBinType := { bin_amount : Z; script_pubkey : bytes }.

Record TxOutputType := {
  address : option string;
  out_amount : Z;
  out_script_type : OutputScriptType
}.

Record TransactionType := {
  version : Z;
  lock_time : Z;
  tt_inputs : list TxInputType;
  bin_outputs : list TxOutputBinType
}.

(** ** Collaborators

    The helpers of hwilib/serializations.py, hwilib/base58.py and
    hwilib/bech32.py that the two functions call. They are kept abstract:
    every result below holds for any implementation of them. *)
Class HwiLib := {
  (** [ser_uint256(u)]: the 32 bytes of a 256-bit integer. *)
  ser_uint256 : Z -> bytes;
  (** [uint256_from_str(s)]: the integer held in 32 bytes. *)
  uint256_from_str : bytes -> result Z;
  (** [CTxOut.is_p2sh()], [CTxOut.is_p2pkh()]. *)
  is_p2sh : CTxOut -> bool;
  is_p2pkh : CTxOut -> bool;
  (** [CTxOut.is_witness()] returns [(True, ver, prog)] or
      [(False, None, None)]; the latter is [None] here. *)
  is_witness : CTxOut -> option (Z * bytes);
  (** [base58.to_address(payload, version)]. *)
  to_address : bytes -> bytes -> string;
  (** [bech32.encode(hrp, witver, witprog)]: the address, or Python's
      [None] when the encoder rejects its own result. *)
  bech32_encode : string -> Z -> bytes -> option string;
  (** [base58.get_xpub_fingerprint(xpub)]. *)
  get_xpub_fingerprint : string -> result Z;
  (** [PSBT.serialize()]. *)
  psbt_serialize : PSBT -> string
}.

(** The trezorlib client: [get_public_node] returns the node's xpub;
    [sign_tx] is given the transaction API installed by [set_tx_api], the
    coin name, the request and returns [(signatures, serialized_tx)]. *)
Record Trezor := {
  get_public_node : list Z -> result string;
  trezor_sign_tx :
    (string -> result TransactionType) ->
    string -> list TxInputType -> list TxOutputType -> Z -> Z ->
    result (list bytes * bytes)
}.

Record TrezorClient := { client : Trezor; is_testnet : bool }.

(** ** Stateful code: the PSBT object and the calls made to the device *)

Inductive Event :=
  | EvGetPublicNode (path : list Z)
  | EvSignTx (coin : string) (ins : list TxInputType)
             (outs : list TxOutputType) (ver locktime : Z).

Definition is_sign_rpc (e : Event) : bool :=
  match e with EvSignTx _ _ _ _ _ => true | EvGetPublicNode _ => false end.

Record Heap := { the_psbt : PSBT; rpc_log : list Event }.

(** A computation reads and writes the heap and returns or raises; what was
    written before a raise stays written. *)
Definition py (A : Type) : Type := Heap -> result A * Heap.

#[global] Instance py_ret : MRet py := fun _ a h => (Ok a, h).
#[global] Instance py_bind : MBind py := fun _ _ f m h =>
  match m h with
  | (Ok a, h') => f a h'
  | (Raise e, h') => (Raise e, h')
  end.

Definition lift {A} (r : result A) : py A := fun h => (r, h).
Definition read_psbt : py PSBT := fun h => (Ok (the_psbt h), h).
Definition log_rpc (e : Event) : py unit := fun h =>
  (Ok tt, {| the_psbt := the_psbt h; rpc_log := rpc_log h ++ [e] |}).

Section Trezori.
Context `{HwiLib}.

(** ** TxAPIPSBT.get_tx *)

(** [uint256_from_str(binascii.unhexlify(txhash)[::-1])] *)
Definition requested_hash (txhash : string) : result Z :=
  raw ← unhexlify txhash; uint256_from_str (py_reversed raw).

(** The scan [for psbt_in in self.psbt.inputs]; [found] is the variable
    [tx]. The right operand of [and] is evaluated only for inputs that hold
    a non-witness UTXO. *)
Fixpoint scan_inputs (ins : list PartiallySignedInput) (txhash : string)
    (found : option CTransaction) : result (option CTransaction) :=
  match ins with
  | [] => Ok found
  | psbt_in :: ins' =>
      match non_witness_utxo psbt_in with
      | Some u =>
          h ← requested_hash txhash;
          if sha256 u =? h then scan_inputs ins' txhash (Some u)
          else scan_inputs ins' txhash found
      | None => scan_inputs ins' txhash found
      end
  end.

Definition expand_vin (i : CTxIn) : TxInputType :=
  {| address_n := None;
     prev_hash := py_reversed (ser_uint256 (hash (prevout i)));
     prev_index := n (prevout i);
     script_sig := Some (scriptSig i);
     sequence := nSequence i;
     script_type := None;
     amount := None |}.

Definition expand_vout (o : CTxOut) : TxOutputBinType :=
  {| bin_amount := nValue o; script_pubkey := scriptPubKey o |}.

Definition describe_tx (t : CTransaction) : TransactionType :=
  {| version := nVersion t;
     lock_time := nLockTime t;
     tt_inputs := expand_vin <$> vin t;
     bin_outputs := expand_vout <$> vout t |}.

Definition not_found_msg (txhash : string) : string :=
  "TX " +:+ txhash +:+ " not found in PSBT".

Definition get_tx (psbt : PSBT) (txhash : string) : result TransactionType :=
  found ← scan_inputs (inputs psbt) txhash None;
  match found with
  | None => Raise (ValueError (not_found_msg txhash))
  | Some t => Ok (describe_tx t)
  end.

(** ** TrezorClient.sign_tx: the request builder *)

(** "Determine spend type" *)
Definition input_script_type (psbt_in : PartiallySignedInput)
    : option InputScriptType :=
  match non_witness_utxo psbt_in with
  | Some _ => Some SPENDADDRESS
  | None =>
      match witness_utxo psbt_in with
      | Some w => if is_p2sh w then Some SPENDP2SHWITNESS else Some SPENDWITNESS
      | None => None
      end
  end.

(** "Check for 1 key", "Check for multisig (more than 1 key)" *)
Definition input_address_n (master_fp : Z) (psbt_in : PartiallySignedInput)
    : result (option (list Z)) :=
  let len := length (hd_keypaths psbt_in) in
  if (len =? 1)%nat then
    pubkey ← py_index (dict_keys (hd_keypaths psbt_in)) 0;
    entry ← dict_get (hd_keypaths psbt_in) pubkey;
    fp ← py_tuple_index entry 0;
    let keypath := py_slice_from 1 entry in
    if fp =? master_fp then Ok (Some keypath) else Ok None
  else if (1 <? len)%nat then Raise (TypeError "Cannot sign multisig yet")
  else Raise (TypeError "All inputs must have a key for this device").

(** "Set the amount" *)
Definition input_amount (psbt_in : PartiallySignedInput) (txin : CTxIn)
    : result (option Z) :=
  match non_witness_utxo psbt_in with
  | Some u => o ← py_index (vout u) (n (prevout txin)); Ok (Some (nValue o))
  | None =>
      match witness_utxo psbt_in with
      | Some w => Ok (Some (nValue w))
      | None => Ok None
      end
  end.

(** The body of [for psbt_in, txin in zip(tx.inputs, tx.tx.vin)]. *)
Definition build_input (master_fp : Z)
    (psbt_in : PartiallySignedInput) (txin : CTxIn) : result TxInputType :=
  let st := input_script_type psbt_in in
  path ← input_address_n master_fp psbt_in;
  amt ← input_amount psbt_in txin;
  Ok {| address_n := path;
        prev_hash := py_reversed (ser_uint256 (hash (prevout txin)));
        prev_index := n (prevout txin);
        script_sig := None;
        sequence := nSequence txin;
        script_type := st;
        amount := amt |}.

Definition build_inputs (master_fp : Z) (psbt : PSBT)
    : result (list TxInputType) :=
  for_each (fun p => build_input master_fp p.1 p.2)
           (zip (inputs psbt) (vin (tx psbt))).

(** "address version byte" *)
Record Network := {
  p2pkh_version : bytes;
  p2sh_version : bytes;
  bech32_hrp : string
}.

Definition network_of (testnet : bool) : Network :=
  if testnet
  then {| p2pkh_version := [x6f]; p2sh_version := [xc4]; bech32_hrp := "tb" |}
  else {| p2pkh_version := [x00]; p2sh_version := [x05]; bech32_hrp := "bc" |}.

Definition output_address (net : Network) (out : CTxOut)
    : result (option string) :=
  if is_p2pkh out then
    Ok (Some (to_address (py_slice 3 23 (scriptPubKey out)) (p2pkh_version net)))
  else if is_p2sh out then
    Ok (Some (to_address (py_slice 2 22 (scriptPubKey out)) (p2sh_version net)))
  else
    match is_witness out with
    | Some (ver, prog) => Ok (bech32_encode (bech32_hrp net) ver prog)
    | None => Raise (TypeError "Output is not an address")
    end.

(** The body of [for out in tx.tx.vout]. *)
Definition build_output (net : Network) (out : CTxOut) : result TxOutputType :=
  addr ← output_address net out;
  Ok {| address := addr; out_amount := nValue out;
        out_script_type := PAYTOADDRESS |}.

Definition build_outputs (net : Network) (psbt : PSBT)
    : result (list TxOutputType) :=
  for_each (build_output net) (vout (tx psbt)).

(** Both loops, inputs first. *)
Definition build_request (self : TrezorClient) (master_fp : Z) (psbt : PSBT)
    : result (list TxInputType * list TxOutputType) :=
  ins ← build_inputs master_fp psbt;
  outs ← build_outputs (network_of (is_testnet self)) psbt;
  Ok (ins, outs).

(** ** TrezorClient.sign_tx: merging the signatures *)

Definition set_partial_sig (psbt_in : PartiallySignedInput)
    (pubkey sig : bytes) : PartiallySignedInput :=
  {| non_witness_utxo := non_witness_utxo psbt_in;
     witness_utxo := witness_utxo psbt_in;
     hd_keypaths := hd_keypaths psbt_in;
     partial_sigs := <[pubkey := sig]> (partial_sigs psbt_in) |}.

(** The locals that live across iterations of the outer loop: the list
    [signatures] and the inner loop variable [sig] ([None] while unbound). *)
Record MergeVars := { signatures : list bytes; sig : option bytes }.

(** One iteration of [for psbt_in in tx.inputs]. The inner loop over
    [zip(psbt_in.hd_keypaths.keys(), signatures)] runs its body at most once
    (it ends in [break]) and not at all when either side is empty; then
    [signatures.remove(sig)] runs with whatever [sig] holds. The input
    object is returned as the iteration leaves it, also on a raise. *)
Definition merge_one (master_fp : Z) (psbt_in : PartiallySignedInput)
    (vars : MergeVars) : result MergeVars * PartiallySignedInput :=
  match zip (dict_keys (hd_keypaths psbt_in)) (signatures vars) with
  | (pubkey, s) :: _ =>
      match entry ← dict_get (hd_keypaths psbt_in) pubkey;
            py_tuple_index entry 0 with
      | Raise e => (Raise e, psbt_in)
      | Ok fp =>
          let psbt_in' :=
            if fp =? master_fp
            then set_partial_sig psbt_in pubkey (s ++ [x01])
            else psbt_in in
          (rest ← list_remove s (signatures vars);
           Ok {| signatures := rest; sig := Some s |},
           psbt_in')
      end
  | [] =>
      (match sig vars with
       | None => Raise (UnboundLocalError "sig")
       | Some s =>
           rest ← list_remove s (signatures vars);
           Ok {| signatures := rest; sig := sig vars |}
       end,
       psbt_in)
  end.

Fixpoint merge_loop (master_fp : Z) (ins : list PartiallySignedInput)
    (vars : MergeVars) : result MergeVars * list PartiallySignedInput :=
  match ins with
  | [] => (Ok vars, [])
  | psbt_in :: ins' =>
      match merge_one master_fp psbt_in vars with
      | (Ok vars', psbt_in') =>
          let (r, ins'') := merge_loop master_fp ins' vars' in
          (r, psbt_in' :: ins'')
      | (Raise e, psbt_in') => (Raise e, psbt_in' :: ins')
      end
  end.

(** [signatures = signed_tx[0]] and the loop, on the PSBT object. *)
Definition merge_signatures (master_fp : Z) (sigs : list bytes) : py unit :=
  fun h =>
    let (r, ins') :=
      merge_loop master_fp (inputs (the_psbt h))
                 {| signatures := sigs; sig := None |} in
    (r ;; Ok tt,
     {| the_psbt := {| tx := tx (the_psbt h); inputs := ins' |};
        rpc_log := rpc_log h |}).

(** ** TrezorClient.sign_tx *)

Definition coin_name (testnet : bool) : string :=
  if testnet then "Testnet" else "Bitcoin".

Definition sign_tx (self : TrezorClient) : py (list (string * string)) :=
  log_rpc (EvGetPublicNode [0]);;
  master_key ← lift (get_public_node (client self) [0]);
  master_fp ← lift (get_xpub_fingerprint master_key);
  psbt ← read_psbt;
  req ← lift (build_request self master_fp psbt);
  let coin := coin_name (is_testnet self) in
  let ver := nVersion (tx psbt) in
  let locktime := nLockTime (tx psbt) in
  log_rpc (EvSignTx coin req.1 req.2 ver locktime);;
  signed_tx ← lift (trezor_sign_tx (client self) (get_tx psbt)
                                   coin req.1 req.2 ver locktime);
  merge_signatures master_fp signed_tx.1;;
  psbt' ← read_psbt;
  mret [("psbt", psbt_serialize psbt')].

(** ** Vocabulary of the statements *)

(** An input embeds a transaction whose hash field is [h]. *)
Definition embeds (h : Z) (psbt_in : PartiallySignedInput) (u : CTransaction) : Prop :=
  non_witness_utxo psbt_in = Some u /\ sha256 u = h.

Definition no_match (h : Z) (psbt_in : PartiallySignedInput) : Prop :=
  forall u, non_witness_utxo psbt_in = Some u -> sha256 u <> h.


(** The exception that ends the merge loop when an input finds the
    signature list empty: [sig] is still unbound if no iteration ran its
    inner body, otherwise [signatures.remove(sig)] fails. *)
Definition shortage_error (sigs : list bytes) (v : option bytes) : exn :=
  match sigs, v with
  | [], None => UnboundLocalError "sig"
  | _, _ => ValueError "list.remove(x): x not in list"
  end.

(** The input has a first key entry holding a fingerprint. *)
Definition keyed (psbt_in : PartiallySignedInput) : Prop :=
  exists pubkey fp path rest, hd_keypaths psbt_in = (pubkey, fp :: path) :: rest.

(** What one iteration leaves of an input that is handed signature [s]. *)
Definition merged (master_fp : Z) (psbt_in : PartiallySignedInput) (s : bytes)
    : PartiallySignedInput :=
  match hd_keypaths psbt_in with
  | (pubkey, fp :: _) :: _ =>
      if fp =? master_fp then set_partial_sig psbt_in pubkey (s ++ [x01])
      else psbt_in
  | _ => psbt_in
  end.

(** The heap once the fingerprint has been asked for and nothing else has
    happened. *)
Definition after_fingerprint (h : Heap) : Heap :=
  {| the_psbt := the_psbt h; rpc_log := rpc_log h ++ [EvGetPublicNode [0]] |}.

Definition sign_event (self : TrezorClient) (psbt : PSBT)
    (req : list TxInputType * list TxOutputType) : Event :=
  EvSignTx (coin_name (is_testnet self)) req.1 req.2
           (nVersion (tx psbt)) (nLockTime (tx psbt)).

Definition device_answer (self : TrezorClient) (psbt : PSBT)
    (req : list TxInputType * list TxOutputType) : result (list bytes * bytes) :=
  trezor_sign_tx (client self) (get_tx psbt) (coin_name (is_testnet self))
                 req.1 req.2 (nVersion (tx psbt)) (nLockTime (tx psbt)).

End Trezori.

(** ** TrezorClient.get_pubkey_at_path *)

(** [trezorlib.tools.parse_path] and [base58.xpub_main_2_test], both kept
    abstract; either may raise. *)
Class PathLib := {
  parse_path : string -> result (list Z);
  xpub_main_2_test : string -> result string
}.

Section PubkeyAtPath.
Context `{PathLib}.

Definition get_pubkey_at_path (self : TrezorClient) (path : string)
    : py (list (string * string)) :=
  expanded_path ← lift (parse_path path);
  log_rpc (EvGetPublicNode expanded_path);;
  output ← lift (get_public_node (client self) expanded_path);
  if is_testnet self then
    converted ← lift (xpub_main_2_test output);
    mret [("xpub", converted)]
  else mret [("xpub", output)].

End PubkeyAtPath.

(** ** Further vocabulary *)

Section MoreVocabulary.
Context `{HwiLib}.

(** Two input objects that differ at most in their [partial_sigs]. *)
Definition same_but_sigs (a b : PartiallySignedInput) : Prop :=
  non_witness_utxo b = non_witness_utxo a /\
  witness_utxo b = witness_utxo a /\
  hd_keypaths b = hd_keypaths a.

(** [list(psbt_in.hd_keypaths.keys())[0]] when there is one. *)
Definition first_pubkey (psbt_in : PartiallySignedInput) : option bytes :=
  head (dict_keys (hd_keypaths psbt_in)).

(** The first key entry holds a fingerprint other than [master_fp]. *)
Definition foreign (master_fp : Z) (psbt_in : PartiallySignedInput) : Prop :=
  exists pubkey fp path rest,
    hd_keypaths psbt_in = (pubkey, fp :: path) :: rest /\ fp <> master_fp.

(** The output script has one of the three address forms. *)
Definition supported_output (out : CTxOut) : bool :=
  is_p2pkh out || is_p2sh out || bool_decide (is_Some (is_witness out)).

(** The exceptions the request builder can end with. *)
Definition builder_error (e : exn) : Prop :=
  e = TypeError "Cannot sign multisig yet" \/
  e = TypeError "All inputs must have a key for this device" \/
  e = IndexError "tuple index out of range" \/
  e = IndexError "list index out of range" \/
  e = TypeError "Output is not an address".

(** The heap after the fingerprint query and one signing request. *)
Definition after_signing (self : TrezorClient) (h : Heap) (psbt' : PSBT)
    (req : list TxInputType * list TxOutputType) : Heap :=
  {| the_psbt := psbt';
     rpc_log := (rpc_log h ++ [EvGetPublicNode [0]])
                ++ [sign_event self (the_psbt h) req] |}.

End MoreVocabulary.

(** ** A concrete set of collaborators

    Used to run the embedding on sample PSBTs. The script templates and the
    256-bit integer framing follow Bitcoin's; the address encoders, the xpub
    decoder and the PSBT serializer are textual stand-ins (hex instead of
    base58check, bech32 and base64), since no result depends on them. *)
Module Sample.

Definition byte_val (b : byte) : Z := Z.of_N (Byte.to_N b).

Definition byte_of_Z (z : Z) : byte :=
  default x00 (Byte.of_N (Z.to_N (z mod 256))).

Fixpoint le_bytes (k : nat) (u : Z) : bytes :=
  match k with
  | O => []
  | S k' => byte_of_Z u :: le_bytes k' (u / 256)
  end.

Fixpoint le_value (s : bytes) : Z :=
  match s with
  | [] => 0
  | b :: s' => byte_val b + 256 * le_value s'
  end.

Definition hex_char (d : Z) : ascii :=
  ascii_of_N (Z.to_N (if d <? 10 then 48 + d else 87 + d)).

Fixpoint hexlify (s : bytes) : string :=
  match s with
  | [] => EmptyString
  | b :: s' =>
      String (hex_char (byte_val b / 16))
        (String (hex_char (byte_val b mod 16)) (hexlify s'))
  end.

Definition script_is_p2sh (s : bytes) : bool :=
  bool_decide (length s = 23%nat /\ s !! 0%nat = Some xa9
               /\ s !! 1%nat = Some x14 /\ s !! 22%nat = Some x87).

Definition script_is_p2pkh (s : bytes) : bool :=
  bool_decide (length s = 25%nat /\ s !! 0%nat = Some x76
               /\ s !! 1%nat = Some xa9 /\ s !! 2%nat = Some x14
               /\ s !! 23%nat = Some x88 /\ s !! 24%nat = Some xac).

Definition script_is_witness (s : bytes) : option (Z * bytes) :=
  match s with
  | op :: len :: prog =>
      let v := byte_val op in
      if ((length s <? 4) || (42 <? length s))%nat then None
      else if negb (v =? 0) && ((v <? 81) || (96 <? v)) then None
      else if byte_val len + 2 =? Z.of_nat (length s)
           then Some (if v =? 0 then 0 else v - 80, prog)
           else None
  | _ => None
  end.

Definition hex_fingerprint (xpub : string) : result Z :=
  raw ← unhexlify xpub;
  if (length raw <? 9)%nat then Raise (ExternalError "bad xpub")
  else Ok (le_value (py_slice 5 9 raw)).

Definition show_input (i : PartiallySignedInput) : string :=
  foldr (fun kv acc => hexlify kv.1 +:+ ":" +:+ hexlify kv.2 +:+ "," +:+ acc)
        ";" (map_to_list (partial_sigs i)).

#[export] Instance lib : HwiLib := {|
  ser_uint256 := le_bytes 32;
  uint256_from_str := fun s =>
    if (length s <? 32)%nat then Raise (ExternalError "struct.error")
    else Ok (le_value (take 32 s));
  is_p2sh := fun o => script_is_p2sh (scriptPubKey o);
  is_p2pkh := fun o => script_is_p2pkh (scriptPubKey o);
  is_witness := fun o => script_is_witness (scriptPubKey o);
  to_address := fun payload ver => "b58:" +:+ hexlify (ver ++ payload);
  bech32_encode := fun hrp ver prog =>
    if (0 <=? ver) && (ver <=? 16)
    then Some (hrp +:+ "1:" +:+ hexlify (byte_of_Z ver :: prog))
    else None;
  get_xpub_fingerprint := hex_fingerprint;
  psbt_serialize := fun p => foldr (fun i acc => show_input i +:+ acc) "" (inputs p)
|}.

(** The device's root key, in hex; bytes 5..9 hold the fingerprint
    0x04030201. *)
Definition root_xpub : string := "0488b21e0001020304".
Definition master_fp : Z := 0x04030201.
Definition other_fp : Z := 0x0a0b0c0d.

Definition pk1 : bytes := [x02; x11].
Definition pk2 : bytes := [x03; x22].
Definition sigA : bytes := [x30; xaa].
Definition sigB : bytes := [x30; xbb].
Definition sigC : bytes := [x30; xcc].

Definition p2pkh_script : bytes :=
  [x76; xa9; x14] ++ replicate 20 x07 ++ [x88; xac].
Definition p2sh_script : bytes := [xa9; x14] ++ replicate 20 x09 ++ [x87].
Definition p2wpkh_script : bytes := [x00; x14] ++ replicate 20 x0b.
Definition op_return_script : bytes := [x6a; x01; x00].

Definition out_p2pkh : CTxOut := {| nValue := 50000; scriptPubKey := p2pkh_script |}.
Definition out_p2sh : CTxOut := {| nValue := 7000; scriptPubKey := p2sh_script |}.
Definition out_wit : CTxOut := {| nValue := 900; scriptPubKey := p2wpkh_script |}.
Definition out_data : CTxOut := {| nValue := 0; scriptPubKey := op_return_script |}.

Definition txin_of (h idx : Z) : CTxIn :=
  {| prevout := {| hash := h; n := idx |}; scriptSig := []; nSequence := 0xffffffff |}.

(** Two previous transactions that carry the same hash field but differ in
    their version, and a third one. *)
Definition prev_a : CTransaction :=
  {| nVersion := 1; vin := [txin_of 5 0]; vout := [out_p2pkh; out_p2sh];
     nLockTime := 0; sha256 := 0xab |}.
Definition prev_b : CTransaction :=
  {| nVersion := 2; vin := [txin_of 6 1]; vout := [out_wit];
     nLockTime := 9; sha256 := 0xab |}.
Definition prev_c : CTransaction :=
  {| nVersion := 1; vin := []; vout := [out_p2pkh]; nLockTime := 0; sha256 := 0xcd |}.

(** The display form of hash 0xab: 32 bytes, most significant first. *)
Definition txhash_ab : string :=
  "00000000000000000000000000000000000000000000000000000000000000ab".

Definition input_with (nw : option CTransaction) (w : option CTxOut)
    (keys : list (bytes * list Z)) : PartiallySignedInput :=
  {| non_witness_utxo := nw; witness_utxo := w; hd_keypaths := keys;
     partial_sigs := ∅ |}.

Definition legacy_mine : PartiallySignedInput :=
  input_with (Some prev_a) None [(pk1, [master_fp; 44; 0; 0])].
Definition legacy_other : PartiallySignedInput :=
  input_with (Some prev_b) None [(pk2, [other_fp; 44; 0; 1])].
Definition segwit_mine : PartiallySignedInput :=
  input_with None (Some out_wit) [(pk1, [master_fp; 84; 0; 2])].
Definition wrapped_mine : PartiallySignedInput :=
  input_with None (Some out_p2sh) [(pk1, [master_fp; 49; 0; 3])].
Definition bare_mine : PartiallySignedInput :=
  input_with None None [(pk1, [master_fp; 44; 0; 4])].
Definition multisig_input : PartiallySignedInput :=
  input_with (Some prev_a) None
             [(pk1, [master_fp; 44; 0; 0]); (pk2, [other_fp; 44; 0; 1])].
Definition keyless_input : PartiallySignedInput :=
  input_with (Some prev_a) None [].

Definition unsigned_tx (ins : list CTxIn) (outs : list CTxOut) : CTransaction :=
  {| nVersion := 2; vin := ins; vout := outs; nLockTime := 0; sha256 := 0 |}.

Definition psbt_of (ins : list PartiallySignedInput) (outs : list CTxOut) : PSBT :=
  {| tx := unsigned_tx (imap (fun k _ => txin_of 0xab (Z.of_nat k)) ins) outs;
     inputs := ins |}.

(** A device that answers with a fixed list of signatures. *)
Definition device (sigs : list bytes) : Trezor :=
  {| get_public_node := fun _ => Ok root_xpub;
     trezor_sign_tx := fun _ _ _ _ _ _ => Ok (sigs, []) |}.

Definition mainnet_client (sigs : list bytes) : TrezorClient :=
  {| client := device sigs; is_testnet := false |}.

Definition fresh (p : PSBT) : Heap := {| the_psbt := p; rpc_log := [] |}.

Definition two_legacy : PSBT := psbt_of [legacy_mine; legacy_other] [out_p2pkh].
Definition three_inputs : PSBT :=
  psbt_of [legacy_mine; segwit_mine; wrapped_mine] [out_p2pkh].
Definition one_input : PSBT := psbt_of [legacy_mine] [out_p2pkh].
Definition with_multisig : PSBT :=
  psbt_of [legacy_mine; multisig_input] [out_p2pkh].

(** Stand-ins for the path parser and the testnet conversion: a path is a
    sequence of decimal digits, one index per digit; the conversion swaps
    the four version bytes of a hex-encoded key. *)
Fixpoint digits_path (s : string) : result (list Z) :=
  match s with
  | EmptyString => Ok []
  | String c s' =>
      let v := Z.of_N (N_of_ascii c) - 48 in
      if (0 <=? v) && (v <=? 9) then rest ← digits_path s'; Ok (v :: rest)
      else Raise (ValueError "Invalid BIP32 path")
  end.

Definition hex_main_2_test (xpub : string) : result string :=
  raw ← unhexlify xpub;
  if (length raw <? 4)%nat then Raise (ExternalError "bad xpub")
  else Ok (hexlify ([x04; x35; x87; xcf] ++ drop 4 raw)).

#[export] Instance paths : PathLib := {|
  parse_path := digits_path;
  xpub_main_2_test := hex_main_2_test
|}.

Definition testnet_client (sigs : list bytes) : TrezorClient :=
  {| client := device sigs; is_testnet := true |}.

(** A device that is not there, and one that refuses to sign. *)
Definition absent_device : Trezor :=
  {| get_public_node := fun _ => Raise (ExternalError "no Device");
     trezor_sign_tx := fun _ _ _ _ _ _ => Raise (ExternalError "no Device") |}.
Definition refusing_device : Trezor :=
  {| get_public_node := fun _ => Ok root_xpub;
     trezor_sign_tx := fun _ _ _ _ _ _ => Raise (ExternalError "Cancelled") |}.


Definition legacy_empty_entry : PartiallySignedInput :=
  input_with (Some prev_a) None [(pk1, [])].
Definition signed_elsewhere : PartiallySignedInput :=
  {| non_witness_utxo := Some prev_a; witness_utxo := None;
     hd_keypaths := [(pk1, [master_fp; 44; 0; 0])];
     partial_sigs := {[ pk2 := sigC ]} |}.
Definition segwit_only : PSBT := psbt_of [segwit_mine; wrapped_mine] [out_wit].
Definition foreign_only : PSBT := psbt_of [legacy_other] [out_p2sh].
Definition with_surplus_input : PSBT :=
  {| tx := unsigned_tx [txin_of 0xab 0] [out_p2pkh];
     inputs := [legacy_mine; keyless_input] |}.
Definition with_data_output : PSBT :=
  psbt_of [legacy_mine] [out_p2pkh; out_data; out_wit].

End Sample.

(** * Properties *)

(** Unfolds the monadic steps of [sign_tx]. *)
Ltac run_sign_tx :=
  unfold sign_tx, mbind, py_bind, mret, py_ret, log_rpc, lift, read_psbt; cbn beta iota.

(** ** Generic facts about the Python helpers *)

Lemma for_each_raise {A B} (f : A -> result B) (l : list A) (x : A) (e : exn) :
  x ∈ l -> f x = Raise e -> exists e', for_each f l = Raise e'.
Proof.
  induction l as [|y l IH]; intros Hin Hx.
  - by apply elem_of_nil in Hin.
  - apply elem_of_cons in Hin as [->|Hin]; simpl.
    + rewrite Hx. by eexists.
    + destruct (f y) as [b|e0]; simpl; [|by eexists].
      destruct (IH Hin Hx) as [e' ->]. by eexists.
Qed.

Lemma for_each_first_raise {A B} (f : A -> result B) pre x post e :
  Forall (fun y => is_Ok (f y) = true) pre ->
  f x = Raise e ->
  for_each f (pre ++ x :: post) = Raise e.
Proof.
  induction 1 as [|y pre Hy _ IH]; intros Hx; simpl.
  - by rewrite Hx.
  - destruct (f y); [|done]. simpl. by rewrite IH.
Qed.

Lemma for_each_Ok_lookup {A B} (f : A -> result B) l ys k x :
  for_each f l = Ok ys -> l !! k = Some x ->
  exists y, ys !! k = Some y /\ f x = Ok y.
Proof.
  revert ys k. induction l as [|a l IH]; intros ys k Hall Hk; [done|].
  simpl in Hall. destruct (f a) as [b|] eqn:Ha; [|done]. simpl in Hall.
  destruct (for_each f l) as [bs|] eqn:Hl; [|done]. simpl in Hall.
  injection Hall as <-. destruct k as [|k]; simpl in *.
  - injection Hk as <-. eauto.
  - eauto.
Qed.

Lemma py_index_0_cons {A} (x : A) (l : list A) : py_index (x :: l) 0 = Ok x.
Proof.
  unfold py_index.
  destruct (Z.leb_spec (Z.of_nat (length (x :: l))) 0) as [Hle|_].
  - cbn [length] in Hle. lia.
  - done.
Qed.

Lemma py_tuple_index_0_cons {A} (x : A) (t : list A) :
  py_tuple_index (x :: t) 0 = Ok x.
Proof.
  unfold py_tuple_index.
  destruct (Z.leb_spec (Z.of_nat (length (x :: t))) 0) as [Hle|_].
  - cbn [length] in Hle. lia.
  - done.
Qed.

Lemma py_index_0_nil {A} : exists e, py_index (@nil A) 0 = Raise e.
Proof. by eexists. Qed.

Lemma py_index_Ok_lookup {A} (l : list A) (i : Z) (x : A) :
  0 <= i -> py_index l i = Ok x -> l !! Z.to_nat i = Some x.
Proof.
  unfold py_index. intros Hi.
  destruct (i <? 0) eqn:E; [lia|].
  destruct (_ || _); [done|].
  destruct (l !! Z.to_nat i); [|done]. congruence.
Qed.

Lemma list_remove_head `{EqDecision A} (x : A) (l : list A) :
  list_remove x (x :: l) = Ok l.
Proof. simpl. by rewrite decide_True. Qed.

Lemma dict_get_head {V} (k : bytes) (v : V) d : dict_get ((k, v) :: d) k = Ok v.
Proof. simpl. by rewrite decide_True. Qed.

Lemma py_slice_lookup {A} (lo hi k : nat) (l : list A) :
  (k < hi - lo)%nat -> py_slice lo hi l !! k = l !! (lo + k)%nat.
Proof.
  intros Hk. unfold py_slice. rewrite lookup_take_lt by done.
  by rewrite lookup_drop.
Qed.

(** ** The previous-transaction resolver *)

Section GetTxProperties.
Context `{HwiLib}.

Lemma scan_inputs_no_match ins txhash h found :
  requested_hash txhash = Ok h ->
  Forall (no_match h) ins ->
  scan_inputs ins txhash found = Ok found.
Proof.
  intros Hh. induction 1 as [|i ins Hi _ IH]; [done|].
  simpl. destruct (non_witness_utxo i) as [u|] eqn:Hu; [|done].
  rewrite Hh. simpl.
  destruct (Z.eqb_spec (sha256 u) h) as [Heq|_]; [|done].
  by destruct (Hi u).
Qed.

Lemma scan_inputs_last_match pre i post u txhash h found :
  requested_hash txhash = Ok h ->
  embeds h i u ->
  Forall (no_match h) post ->
  scan_inputs (pre ++ i :: post) txhash found = Ok (Some u).
Proof.
  intros Hh [Hu Hsha] Hpost. revert found.
  induction pre as [|a pre IH]; intros found; simpl.
  - rewrite Hu, Hh. simpl. rewrite (proj2 (Z.eqb_eq _ _) Hsha).
    by eapply scan_inputs_no_match.
  - destruct (non_witness_utxo a) as [v|]; [|done].
    rewrite Hh. simpl. by destruct (sha256 v =? h).
Qed.




(** C9. When several inputs embed a transaction with the requested hash, the
    scan does not stop at the first: the descriptor returned is built from
    the last matching input in PSBT order. *)
Theorem get_tx_last_match_wins (psbt : PSBT) (txhash : string) (h : Z)
    (pre post : list PartiallySignedInput) (i : PartiallySignedInput)
    (u : CTransaction) :
  requested_hash txhash = Ok h ->
  inputs psbt = pre ++ i :: post ->
  non_witness_utxo i = Some u ->
  sha256 u = h ->
  (forall j v, j ∈ post -> non_witness_utxo j = Some v -> sha256 v <> h) ->
  get_tx psbt txhash = Ok (describe_tx u).
Proof.
  intros Hh Hs Hu Hsha Hpost. unfold get_tx. rewrite Hs.
  rewrite (scan_inputs_last_match pre i post u txhash h); try done.
  apply Forall_forall. intros j Hj v Hv. by apply (Hpost j v).
Qed.

End GetTxProperties.

(** ** The request builder *)

Section BuilderProperties.
Context `{HwiLib}.

Lemma build_input_Ok_inv master_fp psbt_in txin d :
  build_input master_fp psbt_in txin = Ok d ->
  input_address_n master_fp psbt_in = Ok (address_n d) /\
  input_amount psbt_in txin = Ok (amount d) /\
  script_type d = input_script_type psbt_in /\
  prev_hash d = py_reversed (ser_uint256 (hash (prevout txin))) /\
  prev_index d = n (prevout txin) /\
  sequence d = nSequence txin.
Proof.
  unfold build_input.
  destruct (input_address_n master_fp psbt_in) as [path|]; [|done].
  destruct (input_amount psbt_in txin) as [amt|]; [|done].
  simpl. by intros [= <-].
Qed.

Lemma build_input_raise_cases master_fp psbt_in txin e :
  build_input master_fp psbt_in txin = Raise e ->
  input_address_n master_fp psbt_in = Raise e \/
  (is_Ok (input_address_n master_fp psbt_in) = true /\
   input_amount psbt_in txin = Raise e).
Proof.
  unfold build_input.
  destruct (input_address_n master_fp psbt_in) as [path|];
    [|simpl; intros [= <-]; by left].
  destruct (input_amount psbt_in txin) as [amt|]; [done|].
  simpl. intros [= <-]. by right.
Qed.

Lemma input_address_n_single master_fp psbt_in pubkey stored path :
  hd_keypaths psbt_in = [(pubkey, stored :: path)] ->
  input_address_n master_fp psbt_in =
    Ok (if stored =? master_fp then Some path else None).
Proof.
  intros Hk. unfold input_address_n, dict_keys. rewrite Hk. simpl.
  rewrite decide_True by done. simpl.
  by destruct (stored =? master_fp).
Qed.

Lemma input_address_n_multisig master_fp psbt_in :
  (1 < length (hd_keypaths psbt_in))%nat ->
  input_address_n master_fp psbt_in = Raise (TypeError "Cannot sign multisig yet").
Proof.
  intros Hlen. unfold input_address_n.
  destruct (Nat.eqb_spec (length (hd_keypaths psbt_in)) 1) as [Heq|_]; [lia|].
  destruct (Nat.ltb_spec 1 (length (hd_keypaths psbt_in))); [done|lia].
Qed.

Lemma input_address_n_keyless master_fp psbt_in :
  length (hd_keypaths psbt_in) = 0%nat ->
  input_address_n master_fp psbt_in =
    Raise (TypeError "All inputs must have a key for this device").
Proof. intros Hlen. unfold input_address_n. by rewrite Hlen. Qed.

Lemma build_input_not_single master_fp psbt_in txin :
  length (hd_keypaths psbt_in) <> 1%nat ->
  exists e, build_input master_fp psbt_in txin = Raise e.
Proof.
  intros Hlen. unfold build_input.
  destruct (decide (1 < length (hd_keypaths psbt_in))%nat) as [Hgt|Hle].
  - rewrite input_address_n_multisig by done. by eexists.
  - rewrite input_address_n_keyless by lia. by eexists.
Qed.

(** C2 (as the code has it). For every input the builder turns into a
    descriptor, the script type is SPENDADDRESS when a non-witness UTXO is
    present; otherwise SPENDP2SHWITNESS when the witness UTXO is P2SH and
    SPENDWITNESS when it is not; and when the input has neither UTXO the
    script type (and the amount) is left unset and nothing is raised for
    it: with one well-formed key entry the descriptor is built. *)
Theorem input_script_type_classification (master_fp : Z)
    (psbt_in : PartiallySignedInput) (txin : CTxIn) :
  (forall d, build_input master_fp psbt_in txin = Ok d ->
     (forall u, non_witness_utxo psbt_in = Some u ->
        script_type d = Some SPENDADDRESS) /\
     (forall w, non_witness_utxo psbt_in = None -> witness_utxo psbt_in = Some w ->
        is_p2sh w = true -> script_type d = Some SPENDP2SHWITNESS) /\
     (forall w, non_witness_utxo psbt_in = None -> witness_utxo psbt_in = Some w ->
        is_p2sh w = false -> script_type d = Some SPENDWITNESS) /\
     (non_witness_utxo psbt_in = None -> witness_utxo psbt_in = None ->
        script_type d = None /\ amount d = None))
  /\
  (forall pubkey stored path,
     non_witness_utxo psbt_in = None -> witness_utxo psbt_in = None ->
     hd_keypaths psbt_in = [(pubkey, stored :: path)] ->
     exists d, build_input master_fp psbt_in txin = Ok d).
Proof.
  split.
  - intros d Hd. apply build_input_Ok_inv in Hd as (_ & Hamt & -> & _).
    unfold input_script_type, input_amount in *.
    split; [|split; [|split]].
    + intros u ->. done.
    + intros w -> -> ->. done.
    + intros w -> -> ->. done.
    + intros Hn Hw. rewrite Hn, Hw in Hamt |- *. split; congruence.
  - intros pubkey stored path Hn Hw Hk. unfold build_input.
    rewrite (input_address_n_single _ _ _ _ _ Hk). simpl.
    unfold input_amount. rewrite Hn, Hw. simpl. by eexists.
Qed.

(** C4. For an input with exactly one HD-keypath entry
    [(fingerprint, path...)]: resolving the key never raises; a descriptor
    built from it has no derivation path when the stored fingerprint differs
    from the master fingerprint, and has the stored path without its leading
    fingerprint when they are equal; a path is set only in that case. With
    a differing fingerprint the build can only fail in the amount lookup. *)
Theorem address_n_only_for_own_fingerprint (master_fp : Z)
    (psbt_in : PartiallySignedInput) (txin : CTxIn)
    (pubkey : bytes) (stored : Z) (path : list Z) :
  hd_keypaths psbt_in = [(pubkey, stored :: path)] ->
  is_Ok (input_address_n master_fp psbt_in) = true /\
  (forall d, build_input master_fp psbt_in txin = Ok d ->
     (stored <> master_fp -> address_n d = None) /\
     (stored = master_fp -> address_n d = Some (drop 1 (stored :: path))) /\
     (forall p, address_n d = Some p -> stored = master_fp /\ p = path)) /\
  (stored <> master_fp ->
     (exists d, build_input master_fp psbt_in txin = Ok d /\ address_n d = None) \/
     (exists e, build_input master_fp psbt_in txin = Raise e /\
                input_amount psbt_in txin = Raise e)).
Proof.
  intros Hk.
  pose proof (input_address_n_single master_fp _ _ _ _ Hk) as Hpath.
  split; [by rewrite Hpath|]. split.
  - intros d Hd. apply build_input_Ok_inv in Hd as (Hd & _).
    rewrite Hpath in Hd. injection Hd as Hd.
    destruct (Z.eqb_spec stored master_fp) as [Heq|Hne]; rewrite <- Hd.
    + split; [done|]. split; [done|]. by intros p [= <-].
    + split; [done|]. split; [done|]. intros p Hp. discriminate Hp.
  - intros Hne. unfold build_input. rewrite Hpath.
    destruct (Z.eqb_spec stored master_fp) as [Heq|_]; [done|]. simpl.
    destruct (input_amount psbt_in txin) as [amt|e]; simpl.
    + left. by eexists.
    + right. by eexists.
Qed.

(** C6. For every input the builder turns into a descriptor: with a
    non-witness UTXO the amount is the value of that transaction's output at
    the input's prev-index; without one but with a witness UTXO (either
    segwit variant) the amount is the witness UTXO's value. *)
Theorem input_amount_resolution (master_fp : Z)
    (psbt_in : PartiallySignedInput) (txin : CTxIn) (d : TxInputType) :
  build_input master_fp psbt_in txin = Ok d ->
  (forall u, non_witness_utxo psbt_in = Some u ->
     script_type d = Some SPENDADDRESS /\
     exists o, py_index (vout u) (n (prevout txin)) = Ok o /\
               (0 <= n (prevout txin) ->
                vout u !! Z.to_nat (n (prevout txin)) = Some o) /\
               amount d = Some (nValue o)) /\
  (forall w, non_witness_utxo psbt_in = None -> witness_utxo psbt_in = Some w ->
     (script_type d = Some SPENDP2SHWITNESS \/ script_type d = Some SPENDWITNESS) /\
     amount d = Some (nValue w)).
Proof.
  intros Hd. apply build_input_Ok_inv in Hd as (_ & Hamt & Hst & _).
  unfold input_amount, input_script_type in *. split.
  - intros u Hu. rewrite Hu in Hamt, Hst. split; [done|].
    destruct (py_index (vout u) (n (prevout txin))) as [o|] eqn:Ho; [|done].
    simpl in Hamt. exists o. repeat split; [|congruence].
    intros Hn. by apply py_index_Ok_lookup.
  - intros w Hn Hw. rewrite Hn, Hw in Hamt, Hst. split; [|congruence].
    destruct (is_p2sh w); [by left|by right].
Qed.

(** C7. For every output: a P2PKH script gives the base58 address of script
    bytes 3..23 (the twenty bytes from index 3 up to, not including, index
    23) under the network's P2PKH version; otherwise a P2SH script gives
    that of bytes 2..22 under the P2SH version; otherwise a witness script
    gives what the bech32 encoder returns for its version and program under
    the network's prefix; otherwise the builder raises
    TypeError "Output is not an address". Every descriptor built carries the
    output's amount and, of the six output script types, PAYTOADDRESS. *)
Theorem output_address_resolution (self : TrezorClient) (out : CTxOut) :
  let net := network_of (is_testnet self) in
  let script := scriptPubKey out in
  (is_p2pkh out = true ->
     build_output net out =
       Ok {| address := Some (to_address (take 20 (drop 3 script))
                                (if is_testnet self then [x6f] else [x00]));
             out_amount := nValue out; out_script_type := PAYTOADDRESS |}) /\
  (is_p2pkh out = false -> is_p2sh out = true ->
     build_output net out =
       Ok {| address := Some (to_address (take 20 (drop 2 script))
                                (if is_testnet self then [xc4] else [x05]));
             out_amount := nValue out; out_script_type := PAYTOADDRESS |}) /\
  (forall ver prog,
     is_p2pkh out = false -> is_p2sh out = false ->
     is_witness out = Some (ver, prog) ->
     build_output net out =
       Ok {| address := bech32_encode (if is_testnet self then "tb" else "bc")
                                      ver prog;
             out_amount := nValue out; out_script_type := PAYTOADDRESS |}) /\
  (is_p2pkh out = false -> is_p2sh out = false -> is_witness out = None ->
     build_output net out = Raise (TypeError "Output is not an address")) /\
  (forall d, build_output net out = Ok d ->
     out_script_type d = PAYTOADDRESS /\ out_amount d = nValue out) /\
  (forall k,
     take 20 (drop 3 script) !! k =
       (if decide (k < 20)%nat then script !! (3 + k)%nat else None) /\
     take 20 (drop 2 script) !! k =
       (if decide (k < 20)%nat then script !! (2 + k)%nat else None)).
Proof.
  intros net script. subst net script.
  unfold build_output, output_address, py_slice. cbn [Nat.sub].
  split; [|split; [|split; [|split; [|split]]]].
  - intros ->. simpl. by destruct (is_testnet self).
  - intros -> ->. simpl. by destruct (is_testnet self).
  - intros ver prog -> -> ->. simpl. by destruct (is_testnet self).
  - intros -> -> ->. done.
  - intros d.
    destruct (if is_p2pkh out then _ else _) as [addr|]; [|done].
    simpl. by intros [= <-].
  - intros k. split; case_decide.
    + rewrite lookup_take_lt by done. by rewrite lookup_drop.
    + apply lookup_take_ge. lia.
    + rewrite lookup_take_lt by done. by rewrite lookup_drop.
    + apply lookup_take_ge. lia.
Qed.

End BuilderProperties.

(** ** The signature merge loop *)

Section MergeProperties.

Lemma merge_one_keyed master_fp psbt_in vars pubkey fp path rest s sigs :
  hd_keypaths psbt_in = (pubkey, fp :: path) :: rest ->
  signatures vars = s :: sigs ->
  merge_one master_fp psbt_in vars =
    (Ok {| signatures := sigs; sig := Some s |}, merged master_fp psbt_in s).
Proof.
  intros Hk Hs. unfold merge_one, merged, dict_keys. rewrite Hk, Hs. simpl.
  rewrite !decide_True by done. simpl. done.
Qed.

Lemma merge_one_no_signature master_fp psbt_in vars :
  signatures vars = [] ->
  exists e, merge_one master_fp psbt_in vars = (Raise e, psbt_in).
Proof.
  intros Hs. unfold merge_one. rewrite Hs.
  replace (zip (dict_keys (hd_keypaths psbt_in)) []) with (@nil (bytes * bytes))
    by (by destruct (dict_keys (hd_keypaths psbt_in))).
  destruct (sig vars); simpl; by eexists.
Qed.

Lemma merge_one_with_key master_fp psbt_in vars s sigs :
  hd_keypaths psbt_in <> [] ->
  signatures vars = s :: sigs ->
  (exists e, (merge_one master_fp psbt_in vars).1 = Raise e) \/
  keyed psbt_in.
Proof.
  intros Hk Hs.
  destruct (hd_keypaths psbt_in) as [|[pubkey [|fp path]] rest] eqn:Hkeys; [done| |].
  - left. unfold merge_one, dict_keys. rewrite Hkeys, Hs. simpl.
    rewrite decide_True by done. simpl. by eexists.
  - right. by exists pubkey, fp, path, rest.
Qed.

Lemma merge_loop_enough master_fp ins sigs v :
  Forall keyed ins ->
  (length ins <= length sigs)%nat ->
  exists v',
    merge_loop master_fp ins {| signatures := sigs; sig := v |} =
      (Ok {| signatures := drop (length ins) sigs; sig := v' |},
       zip_with (merged master_fp) ins sigs).
Proof.
  intros Hall. revert sigs v.
  induction Hall as [|i ins (pubkey & fp & path & rest & Hk) _ IH];
    intros sigs v Hlen.
  - exists v. simpl. by rewrite drop_0.
  - destruct sigs as [|s sigs]; [simpl in Hlen; lia|].
    cbn [merge_loop].
    rewrite (merge_one_keyed master_fp i _ pubkey fp path rest s sigs) by done.
    destruct (IH sigs (Some s)) as [v' ->]; [simpl in Hlen; lia|].
    by exists v'.
Qed.

Lemma merge_loop_short master_fp ins sigs v :
  Forall (fun i => hd_keypaths i <> []) ins ->
  (length sigs < length ins)%nat ->
  exists e, (merge_loop master_fp ins {| signatures := sigs; sig := v |}).1 = Raise e.
Proof.
  intros Hall. revert sigs v.
  induction Hall as [|i ins Hi _ IH]; intros sigs v Hlen; [simpl in Hlen; lia|].
  cbn [merge_loop]. destruct sigs as [|s sigs].
  - destruct (merge_one_no_signature master_fp i {| signatures := []; sig := v |})
      as [e ->]; [done|]. by exists e.
  - destruct (merge_one_with_key master_fp i {| signatures := s :: sigs; sig := v |} s sigs)
      as [[e He]|(pubkey & fp & path & rest & Hk)]; [done|done| |].
    + destruct (merge_one _ _ _) as [[vars'|e'] i']; simpl in He; [done|].
      by exists e'.
    + rewrite (merge_one_keyed master_fp i _ pubkey fp path rest s sigs) by done.
      destruct (IH sigs (Some s)) as [e He]; [simpl in Hlen; lia|].
      destruct (merge_loop _ _ _) as [r ins']. simpl in *. by exists e.
Qed.

(** With too few signatures the loop stops at the first input left without
    one: the inputs before it are merged, the others are untouched. *)
Lemma merge_loop_short_keyed master_fp ins sigs v :
  Forall keyed ins ->
  (length sigs < length ins)%nat ->
  merge_loop master_fp ins {| signatures := sigs; sig := v |} =
    (Raise (shortage_error sigs v),
     zip_with (merged master_fp) ins sigs ++ drop (length sigs) ins).
Proof.
  intros Hall. revert sigs v.
  induction Hall as [|i ins (pubkey & fp & path & rest & Hk) _ IH];
    intros sigs v Hlen; [simpl in Hlen; lia|].
  cbn [merge_loop]. destruct sigs as [|s sigs].
  - unfold merge_one. cbn [signatures sig].
    replace (zip (dict_keys (hd_keypaths i)) []) with (@nil (bytes * bytes))
      by (by destruct (dict_keys (hd_keypaths i))).
    by destruct v.
  - rewrite (merge_one_keyed master_fp i _ pubkey fp path rest s sigs) by done.
    rewrite IH by (simpl in Hlen; lia).
    simpl. by destruct sigs.
Qed.

(** C10. An input whose first key entry holds a fingerprint takes the
    signature at the front of the list and removes it, whether or not that
    fingerprint is the master fingerprint; the signature is stored (with the
    0x01 byte appended) only when it is. Over the whole loop, with at least
    as many signatures as inputs, input number k is handed signature number
    k whatever the fingerprints of the inputs before it, and the first
    [length ins] signatures are gone from the list. *)
Theorem merge_consumes_per_keyed_input (master_fp : Z) :
  (forall psbt_in vars pubkey fp path rest s sigs,
     hd_keypaths psbt_in = (pubkey, fp :: path) :: rest ->
     signatures vars = s :: sigs ->
     exists psbt_in',
       merge_one master_fp psbt_in vars =
         (Ok {| signatures := sigs; sig := Some s |}, psbt_in') /\
       (fp = master_fp -> psbt_in' = set_partial_sig psbt_in pubkey (s ++ [x01])) /\
       (fp <> master_fp -> psbt_in' = psbt_in))
  /\
  (forall ins sigs,
     Forall keyed ins ->
     (length ins <= length sigs)%nat ->
     exists v,
       merge_loop master_fp ins {| signatures := sigs; sig := None |} =
         (Ok {| signatures := drop (length ins) sigs; sig := v |},
          zip_with (merged master_fp) ins sigs)).
Proof.
  split.
  - intros psbt_in vars pubkey fp path rest s sigs Hk Hs.
    exists (merged master_fp psbt_in s). split.
    + by eapply merge_one_keyed.
    + unfold merged. rewrite Hk.
      destruct (Z.eqb_spec fp master_fp); split; done.
  - intros ins sigs Hall Hlen. by apply merge_loop_enough.
Qed.

End MergeProperties.

(** ** The whole call *)

Section SignTxProperties.
Context `{HwiLib}.

Lemma sign_tx_no_xpub self h e :
  get_public_node (client self) [0] = Raise e ->
  sign_tx self h = (Raise e, after_fingerprint h).
Proof. intros Hx. run_sign_tx. by rewrite Hx. Qed.

Lemma sign_tx_no_fingerprint self h xpub e :
  get_public_node (client self) [0] = Ok xpub ->
  get_xpub_fingerprint xpub = Raise e ->
  sign_tx self h = (Raise e, after_fingerprint h).
Proof. intros Hx Hf. run_sign_tx. by rewrite Hx, Hf. Qed.

Lemma sign_tx_build_raise self h xpub fp e :
  get_public_node (client self) [0] = Ok xpub ->
  get_xpub_fingerprint xpub = Ok fp ->
  build_request self fp (the_psbt h) = Raise e ->
  sign_tx self h = (Raise e, after_fingerprint h).
Proof. intros Hx Hf Hb. run_sign_tx. rewrite Hx, Hf. simpl. by rewrite Hb. Qed.

Lemma sign_tx_device_raise self h xpub fp req e :
  get_public_node (client self) [0] = Ok xpub ->
  get_xpub_fingerprint xpub = Ok fp ->
  build_request self fp (the_psbt h) = Ok req ->
  device_answer self (the_psbt h) req = Raise e ->
  sign_tx self h =
    (Raise e,
     {| the_psbt := the_psbt h;
        rpc_log := (rpc_log h ++ [EvGetPublicNode [0]])
                   ++ [sign_event self (the_psbt h) req] |}).
Proof.
  intros Hx Hf Hb Hd. run_sign_tx. rewrite Hx, Hf. simpl. rewrite Hb. simpl.
  unfold device_answer in Hd. by rewrite Hd.
Qed.

Lemma sign_tx_device_answer self h xpub fp req sigs ser :
  get_public_node (client self) [0] = Ok xpub ->
  get_xpub_fingerprint xpub = Ok fp ->
  build_request self fp (the_psbt h) = Ok req ->
  device_answer self (the_psbt h) req = Ok (sigs, ser) ->
  let out := merge_loop fp (inputs (the_psbt h))
                        {| signatures := sigs; sig := None |} in
  let psbt' := {| tx := tx (the_psbt h); inputs := out.2 |} in
  sign_tx self h =
    (out.1 ;; Ok [("psbt", psbt_serialize psbt')],
     {| the_psbt := psbt';
        rpc_log := (rpc_log h ++ [EvGetPublicNode [0]])
                   ++ [sign_event self (the_psbt h) req] |}).
Proof.
  intros Hx Hf Hb Hd. run_sign_tx. rewrite Hx, Hf. simpl. rewrite Hb. simpl.
  unfold device_answer in Hd. rewrite Hd. simpl.
  unfold merge_signatures. simpl.
  destruct (merge_loop _ _ _) as [[vars|e] ins']; done.
Qed.

(** Every call ends in one of three ways. *)
Lemma sign_tx_cases self h :
  (exists e, sign_tx self h = (Raise e, after_fingerprint h)) \/
  (exists fp req e,
     build_request self fp (the_psbt h) = Ok req /\
     device_answer self (the_psbt h) req = Raise e /\
     sign_tx self h =
       (Raise e,
        {| the_psbt := the_psbt h;
           rpc_log := (rpc_log h ++ [EvGetPublicNode [0]])
                      ++ [sign_event self (the_psbt h) req] |})) \/
  (exists fp req sigs ser,
     build_request self fp (the_psbt h) = Ok req /\
     device_answer self (the_psbt h) req = Ok (sigs, ser) /\
     rpc_log (sign_tx self h).2 =
       (rpc_log h ++ [EvGetPublicNode [0]]) ++ [sign_event self (the_psbt h) req]).
Proof.
  destruct (get_public_node (client self) [0]) as [xpub|e] eqn:Hx;
    [|left; exists e; by apply sign_tx_no_xpub].
  destruct (get_xpub_fingerprint xpub) as [fp|e] eqn:Hf;
    [|left; exists e; by eapply sign_tx_no_fingerprint].
  destruct (build_request self fp (the_psbt h)) as [req|e] eqn:Hb;
    [|left; exists e; by eapply sign_tx_build_raise].
  destruct (device_answer self (the_psbt h) req) as [[sigs ser]|e] eqn:Hd.
  - right. right. exists fp, req, sigs, ser. split; [done|]. split; [done|].
    by rewrite (sign_tx_device_answer self h xpub fp req sigs ser).
  - right. left. exists fp, req, e. split; [done|]. split; [done|].
    by eapply sign_tx_device_raise.
Qed.

Lemma build_request_input_raise self fp psbt k psbt_in txin :
  inputs psbt !! k = Some psbt_in ->
  vin (tx psbt) !! k = Some txin ->
  length (hd_keypaths psbt_in) <> 1%nat ->
  exists e, build_request self fp psbt = Raise e.
Proof.
  intros Hi Hv Hlen.
  destruct (build_input_not_single fp psbt_in txin Hlen) as [e He].
  destruct (for_each_raise (fun p => build_input fp p.1 p.2)
              (zip (inputs psbt) (vin (tx psbt))) (psbt_in, txin) e) as [e' He'].
  - apply list_elem_of_lookup. exists k.
    apply lookup_zip_with_Some. by exists psbt_in, txin.
  - done.
  - exists e'. unfold build_request, build_inputs. by rewrite He'.
Qed.

Lemma for_each_Ok_length {A B} (f : A -> result B) l ys :
  for_each f l = Ok ys -> length ys = length l.
Proof.
  revert ys. induction l as [|a l IH]; intros ys Hall; simpl in Hall.
  - by injection Hall as <-.
  - destruct (f a) as [b|]; [|done]. simpl in Hall.
    destruct (for_each f l) as [bs|]; [|done]. simpl in Hall.
    injection Hall as <-. simpl. by rewrite (IH bs).
Qed.

Lemma build_input_Ok_keyed fp psbt_in txin d :
  build_input fp psbt_in txin = Ok d -> keyed psbt_in.
Proof.
  intros Hd. apply build_input_Ok_inv in Hd as (Hpath & _).
  unfold input_address_n, dict_keys in Hpath.
  destruct (hd_keypaths psbt_in) as [|[pubkey entry] [|second rest]] eqn:Hk;
    [done| |done].
  destruct entry as [|stored path].
  - simpl in Hpath. rewrite decide_True in Hpath by done. done.
  - by exists pubkey, stored, path, [].
Qed.

Lemma build_inputs_Ok_keyed fp psbt ins :
  build_inputs fp psbt = Ok ins ->
  length (inputs psbt) = length (vin (tx psbt)) ->
  length ins = length (inputs psbt) /\ Forall keyed (inputs psbt).
Proof.
  intros Hb Hlen. unfold build_inputs in Hb. split.
  - rewrite (for_each_Ok_length _ _ _ Hb), length_zip_with. lia.
  - apply Forall_lookup. intros k psbt_in Hk.
    destruct (lookup_lt_is_Some_2 (vin (tx psbt)) k) as [txin Ht].
    { rewrite <- Hlen. by eapply lookup_lt_Some. }
    destruct (for_each_Ok_lookup _ _ _ k (psbt_in, txin) Hb) as (d & _ & Hd).
    { apply lookup_zip_with_Some. by exists psbt_in, txin. }
    by eapply build_input_Ok_keyed.
Qed.

Lemma keyed_has_key psbt_in : keyed psbt_in -> hd_keypaths psbt_in <> [].
Proof. intros (pubkey & fp & path & rest & ->). done. Qed.

(** C8. A call whose builder raises ends with that exception, with the PSBT
    object as it was and with no signing request sent (only the fingerprint
    query is in the log). In any call, a signing request in the log carries
    the complete result of a builder run that succeeded, and the PSBT object
    differs from the initial one only if the device was asked and
    answered. *)
Theorem build_failure_precedes_device_and_mutation (self : TrezorClient) (h : Heap) :
  (forall xpub fp e,
     get_public_node (client self) [0] = Ok xpub ->
     get_xpub_fingerprint xpub = Ok fp ->
     build_request self fp (the_psbt h) = Raise e ->
     sign_tx self h =
       (Raise e,
        {| the_psbt := the_psbt h;
           rpc_log := rpc_log h ++ [EvGetPublicNode [0]] |}))
  /\
  (forall ev,
     ev ∈ drop (length (rpc_log h)) (rpc_log (sign_tx self h).2) ->
     is_sign_rpc ev = true ->
     exists fp req,
       build_request self fp (the_psbt h) = Ok req /\
       ev = EvSignTx (coin_name (is_testnet self)) req.1 req.2
                     (nVersion (tx (the_psbt h))) (nLockTime (tx (the_psbt h))))
  /\
  (the_psbt (sign_tx self h).2 <> the_psbt h ->
   exists fp req sigs ser,
     build_request self fp (the_psbt h) = Ok req /\
     device_answer self (the_psbt h) req = Ok (sigs, ser) /\
     sign_event self (the_psbt h) req ∈ rpc_log (sign_tx self h).2).
Proof.
  split; [|split].
  - intros xpub fp e Hx Hf Hb. by eapply sign_tx_build_raise.
  - intros ev Hev Hsign.
    destruct (sign_tx_cases self h)
      as [[e Hr]|[(fp & req & e & Hb & _ & Hr)|(fp & req & sigs & ser & Hb & _ & Hr)]];
      rewrite Hr in Hev; simpl in Hev.
    + rewrite drop_app_length in Hev.
      apply list_elem_of_singleton in Hev as ->. done.
    + rewrite <- app_assoc, drop_app_length in Hev.
      apply elem_of_cons in Hev as [->|Hev]; [done|].
      apply list_elem_of_singleton in Hev as ->. by exists fp, req.
    + rewrite <- app_assoc, drop_app_length in Hev.
      apply elem_of_cons in Hev as [->|Hev]; [done|].
      apply list_elem_of_singleton in Hev as ->. by exists fp, req.
  - intros Hchanged.
    destruct (sign_tx_cases self h)
      as [[e Hr]|[(fp & req & e & Hb & _ & Hr)|(fp & req & sigs & ser & Hb & Hd & Hr)]].
    + by rewrite Hr in Hchanged.
    + by rewrite Hr in Hchanged.
    + exists fp, req, sigs, ser. split; [done|]. split; [done|].
      rewrite Hr. apply elem_of_app. right. by apply list_elem_of_singleton.
Qed.

(** C3. An input with more than one HD-keypath entry makes the builder raise
    TypeError "Cannot sign multisig yet"; one with no entry makes it raise
    TypeError "All inputs must have a key for this device". A call whose
    PSBT has such an input (paired with a transaction input) raises, with
    the PSBT untouched and no signing request sent; when the inputs before
    it build, the exception raised is that of this input. *)
Theorem key_count_errors (self : TrezorClient) (master_fp : Z)
    (psbt_in : PartiallySignedInput) (txin : CTxIn) :
  ((1 < length (hd_keypaths psbt_in))%nat ->
     build_input master_fp psbt_in txin = Raise (TypeError "Cannot sign multisig yet"))
  /\
  (length (hd_keypaths psbt_in) = 0%nat ->
     build_input master_fp psbt_in txin =
       Raise (TypeError "All inputs must have a key for this device"))
  /\
  (forall h k,
     inputs (the_psbt h) !! k = Some psbt_in ->
     vin (tx (the_psbt h)) !! k = Some txin ->
     length (hd_keypaths psbt_in) <> 1%nat ->
     exists e,
       sign_tx self h =
         (Raise e,
          {| the_psbt := the_psbt h;
             rpc_log := rpc_log h ++ [EvGetPublicNode [0]] |}))
  /\
  (forall h xpub pre post vpre vpost e,
     get_public_node (client self) [0] = Ok xpub ->
     get_xpub_fingerprint xpub = Ok master_fp ->
     inputs (the_psbt h) = pre ++ psbt_in :: post ->
     vin (tx (the_psbt h)) = vpre ++ txin :: vpost ->
     length pre = length vpre ->
     Forall (fun p => is_Ok (build_input master_fp p.1 p.2) = true) (zip pre vpre) ->
     build_input master_fp psbt_in txin = Raise e ->
     sign_tx self h =
       (Raise e,
        {| the_psbt := the_psbt h;
           rpc_log := rpc_log h ++ [EvGetPublicNode [0]] |})).
Proof.
  split; [|split; [|split]].
  - intros Hlen. unfold build_input. by rewrite input_address_n_multisig.
  - intros Hlen. unfold build_input. by rewrite input_address_n_keyless.
  - intros h k Hi Hv Hlen.
    destruct (get_public_node (client self) [0]) as [xpub|e] eqn:Hx;
      [|exists e; by apply sign_tx_no_xpub].
    destruct (get_xpub_fingerprint xpub) as [fp|e] eqn:Hf;
      [|exists e; by eapply sign_tx_no_fingerprint].
    destruct (build_request_input_raise self fp (the_psbt h) k psbt_in txin)
      as [e He]; [done..|].
    exists e. by eapply sign_tx_build_raise.
  - intros h xpub pre post vpre vpost e Hx Hf Hi Hv Hlen Hpre He.
    eapply sign_tx_build_raise; [done..|].
    unfold build_request, build_inputs. rewrite Hi, Hv.
    rewrite zip_with_app by done. simpl.
    by rewrite (for_each_first_raise _ _ (psbt_in, txin) _ e).
Qed.

(** C1 (as the code has it). The merge loop compares no counts. When the
    device answers with fewer signatures than the request has inputs, the
    call raises from the list operations of the loop (UnboundLocalError for
    [sig] on an empty answer, else ValueError from [signatures.remove]),
    after the inputs that did get a signature were merged; so two
    signatures for three inputs is an error. When it answers with more,
    the call returns normally: every input is handed the signature at its
    position and the surplus is dropped. *)
Theorem signature_count_mismatch (self : TrezorClient) (h : Heap)
    (xpub : string) (fp : Z) (req : list TxInputType * list TxOutputType)
    (sigs : list bytes) (ser : bytes) :
  get_public_node (client self) [0] = Ok xpub ->
  get_xpub_fingerprint xpub = Ok fp ->
  build_request self fp (the_psbt h) = Ok req ->
  length (inputs (the_psbt h)) = length (vin (tx (the_psbt h))) ->
  device_answer self (the_psbt h) req = Ok (sigs, ser) ->
  length req.1 = length (inputs (the_psbt h)) /\
  ((length sigs < length req.1)%nat ->
     (sign_tx self h).1 =
       Raise (if decide (sigs = []) then UnboundLocalError "sig"
              else ValueError "list.remove(x): x not in list") /\
     inputs (the_psbt (sign_tx self h).2) =
       zip_with (merged fp) (inputs (the_psbt h)) sigs
       ++ drop (length sigs) (inputs (the_psbt h))) /\
  ((length req.1 < length sigs)%nat ->
     (sign_tx self h).1 =
       Ok [("psbt", psbt_serialize (the_psbt (sign_tx self h).2))] /\
     inputs (the_psbt (sign_tx self h).2) =
       zip_with (merged fp) (inputs (the_psbt h)) sigs /\
     drop (length req.1) sigs <> []).
Proof.
  intros Hx Hf Hb Hlen Hd.
  assert (exists outs, build_inputs fp (the_psbt h) = Ok req.1 /\ req = (req.1, outs))
    as (outs & Hins & _).
  { unfold build_request in Hb.
    destruct (build_inputs fp (the_psbt h)) as [ins|]; [|done]. simpl in Hb.
    destruct (build_outputs _ _) as [outs|]; [|done]. simpl in Hb.
    injection Hb as <-. by exists outs. }
  destruct (build_inputs_Ok_keyed fp (the_psbt h) req.1 Hins Hlen) as [Hn Hkeyed].
  rewrite (sign_tx_device_answer self h xpub fp req sigs ser) by done.
  split; [done|]. rewrite Hn. split.
  - intros Hshort.
    rewrite (merge_loop_short_keyed fp (inputs (the_psbt h)) sigs None) by done.
    cbn [fst snd the_psbt inputs]. split; [|done].
    by destruct sigs.
  - intros Hlong.
    destruct (merge_loop_enough fp (inputs (the_psbt h)) sigs None) as [v Hv];
      [done|lia|].
    rewrite Hv. cbn [fst snd the_psbt inputs]. split; [done|]. split; [done|].
    intros Hnil. apply (f_equal length) in Hnil.
    rewrite length_drop in Hnil. simpl in Hnil. lia.
Qed.

End SignTxProperties.

(** ** The resolver inside the signing call *)

Section ResolverInCall.
Context `{HwiLib}.


End ResolverInCall.

(** * Sample runs *)

Import Sample.

(** The device answers a one-input request with two signatures: the call
    returns normally and the second signature is dropped. *)
Lemma surplus_signature_is_accepted :
  length (inputs one_input) = 1%nat /\
  device_answer (mainnet_client [sigA; sigB]) one_input
    ([{| address_n := Some [44; 0; 0];
         prev_hash := reverse (le_bytes 32 0xab);
         prev_index := 0; script_sig := None; sequence := 0xffffffff;
         script_type := Some SPENDADDRESS; amount := Some 50000 |}],
     [{| address := Some "b58:000707070707070707070707070707070707070707";
         out_amount := 50000; out_script_type := PAYTOADDRESS |}])
    = Ok ([sigA; sigB], []) /\
  (sign_tx (mainnet_client [sigA; sigB]) (fresh one_input)).1
    = Ok [("psbt", "0211:30aa01,;")].
Proof. repeat split; vm_compute; reflexivity. Qed.

(** An input with neither UTXO and one key of this device: no exception;
    the descriptor has no script type and no amount. *)
Lemma input_without_utxo_is_built :
  non_witness_utxo bare_mine = None /\
  witness_utxo bare_mine = None /\
  build_input master_fp bare_mine (txin_of 0xab 4) =
    Ok {| address_n := Some [44; 0; 4];
          prev_hash := reverse (le_bytes 32 0xab);
          prev_index := 4; script_sig := None; sequence := 0xffffffff;
          script_type := None; amount := None |}.
Proof. repeat split; vm_compute; reflexivity. Qed.

Lemma input_script_type_classification_witness :
  non_witness_utxo bare_mine = None /\
  witness_utxo bare_mine = None /\
  hd_keypaths bare_mine = [(pk1, master_fp :: [44; 0; 4])] /\
  exists d, build_input master_fp bare_mine (txin_of 0xab 4) = Ok d.
Proof.
  repeat split.
  by apply (proj2 (input_script_type_classification master_fp bare_mine
                     (txin_of 0xab 4)) pk1 master_fp [44; 0; 4]).
Defined.

Lemma key_count_errors_witness :
  (1 < length (hd_keypaths multisig_input))%nat /\
  length (hd_keypaths keyless_input) = 0%nat /\
  build_input master_fp multisig_input (txin_of 0xab 0) =
    Raise (TypeError "Cannot sign multisig yet") /\
  build_input master_fp keyless_input (txin_of 0xab 0) =
    Raise (TypeError "All inputs must have a key for this device") /\
  inputs with_multisig = [legacy_mine] ++ multisig_input :: [] /\
  sign_tx (mainnet_client [sigA]) (fresh with_multisig) =
    (Raise (TypeError "Cannot sign multisig yet"),
     {| the_psbt := with_multisig; rpc_log := [EvGetPublicNode [0]] |}).
Proof.
  split; [simpl; lia|]. split; [reflexivity|]. split; [|split; [|split]].
  - apply (key_count_errors (mainnet_client []) master_fp multisig_input
             (txin_of 0xab 0)). simpl. lia.
  - apply (key_count_errors (mainnet_client []) master_fp keyless_input
             (txin_of 0xab 0)). reflexivity.
  - reflexivity.
  - destruct (key_count_errors (mainnet_client [sigA]) master_fp multisig_input
                (txin_of 0xab 1)) as (_ & _ & _ & Hfirst).
    apply (Hfirst (fresh with_multisig) root_xpub [legacy_mine] []
                  [txin_of 0xab 0] []); try reflexivity.
    repeat constructor.
Defined.

Lemma address_n_only_for_own_fingerprint_witness :
  hd_keypaths legacy_other = [(pk2, other_fp :: [44; 0; 1])] /\
  forall d, build_input master_fp legacy_other (txin_of 0xab 0) = Ok d ->
            address_n d = None.
Proof.
  split; [reflexivity|]. intros d Hd.
  destruct (address_n_only_for_own_fingerprint master_fp legacy_other
              (txin_of 0xab 0) pk2 other_fp [44; 0; 1] eq_refl)
    as (_ & Hbuilt & _).
  apply (Hbuilt d Hd). discriminate.
Defined.


Lemma get_tx_last_match_wins_witness :
  requested_hash txhash_ab = Ok 0xab /\
  inputs (psbt_of [legacy_mine; legacy_other; segwit_mine] []) =
    [legacy_mine] ++ legacy_other :: [segwit_mine] /\
  non_witness_utxo legacy_mine = Some prev_a /\ sha256 prev_a = 0xab /\
  non_witness_utxo legacy_other = Some prev_b /\ sha256 prev_b = 0xab /\
  get_tx (psbt_of [legacy_mine; legacy_other; segwit_mine] []) txhash_ab =
    Ok (describe_tx prev_b).
Proof.
  do 6 (split; [reflexivity|]).
  apply (get_tx_last_match_wins _ txhash_ab 0xab [legacy_mine] [segwit_mine]
           legacy_other prev_b); try reflexivity.
  intros j v Hj Hv. apply list_elem_of_singleton in Hj as ->. discriminate.
Defined.

Lemma input_amount_resolution_witness :
  build_input master_fp legacy_mine (txin_of 0xab 1) =
    Ok {| address_n := Some [44; 0; 0];
          prev_hash := reverse (le_bytes 32 0xab);
          prev_index := 1; script_sig := None; sequence := 0xffffffff;
          script_type := Some SPENDADDRESS; amount := Some 7000 |} /\
  exists o, vout prev_a !! 1%nat = Some o /\ Some 7000 = Some (nValue o).
Proof.
  split; [reflexivity|].
  destruct (input_amount_resolution master_fp legacy_mine (txin_of 0xab 1) _ eq_refl)
    as [Hlegacy _].
  destruct (Hlegacy prev_a eq_refl) as (_ & o & _ & Hlookup & Hamount).
  exists o. split; [apply Hlookup; simpl; lia|exact Hamount].
Defined.

Lemma output_address_resolution_witness :
  is_p2pkh out_p2pkh = true /\
  build_output (network_of false) out_p2pkh =
    Ok {| address := Some (to_address (replicate 20 x07) [x00]);
          out_amount := 50000; out_script_type := PAYTOADDRESS |}.
Proof.
  split; [reflexivity|].
  by apply (output_address_resolution (mainnet_client []) out_p2pkh).
Defined.

Lemma build_failure_precedes_device_and_mutation_witness :
  get_public_node (client (mainnet_client [sigA])) [0] = Ok root_xpub /\
  get_xpub_fingerprint root_xpub = Ok master_fp /\
  build_request (mainnet_client [sigA]) master_fp with_multisig =
    Raise (TypeError "Cannot sign multisig yet") /\
  sign_tx (mainnet_client [sigA]) (fresh with_multisig) =
    (Raise (TypeError "Cannot sign multisig yet"),
     {| the_psbt := with_multisig; rpc_log := [EvGetPublicNode [0]] |}).
Proof.
  do 3 (split; [reflexivity|]).
  apply (proj1 (build_failure_precedes_device_and_mutation
                  (mainnet_client [sigA]) (fresh with_multisig))
               root_xpub master_fp); reflexivity.
Defined.

Lemma merge_consumes_per_keyed_input_witness :
  hd_keypaths legacy_other = (pk2, other_fp :: [44; 0; 1]) :: [] /\
  other_fp <> master_fp /\
  merge_one master_fp legacy_other {| signatures := [sigA; sigB]; sig := None |} =
    (Ok {| signatures := [sigB]; sig := Some sigA |}, legacy_other) /\
  exists v,
    merge_loop master_fp [legacy_other; legacy_mine]
               {| signatures := [sigA; sigB; sigC]; sig := None |} =
      (Ok {| signatures := [sigC]; sig := v |},
       [legacy_other; set_partial_sig legacy_mine pk1 (sigB ++ [x01])]).
Proof.
  split; [reflexivity|]. split; [discriminate|]. split.
  - destruct (proj1 (merge_consumes_per_keyed_input master_fp) legacy_other
                {| signatures := [sigA; sigB]; sig := None |}
                pk2 other_fp [44; 0; 1] [] sigA [sigB] eq_refl eq_refl)
      as (i' & Hrun & _ & Hother).
    rewrite Hrun. by rewrite Hother.
  - apply (proj2 (merge_consumes_per_keyed_input master_fp)
             [legacy_other; legacy_mine] [sigA; sigB; sigC]).
    + repeat constructor; by eexists _, _, _, _.
    + simpl. lia.
Defined.

Lemma signature_count_mismatch_witness :
  length (inputs three_inputs) = 3%nat /\
  (exists req,
     build_request (mainnet_client [sigA; sigB]) master_fp three_inputs = Ok req /\
     device_answer (mainnet_client [sigA; sigB]) three_inputs req =
       Ok ([sigA; sigB], [])) /\
  (sign_tx (mainnet_client [sigA; sigB]) (fresh three_inputs)).1 =
    Raise (ValueError "list.remove(x): x not in list") /\
  inputs (the_psbt (sign_tx (mainnet_client [sigA; sigB]) (fresh three_inputs)).2) =
    [set_partial_sig legacy_mine pk1 (sigA ++ [x01]);
     set_partial_sig segwit_mine pk1 (sigB ++ [x01]);
     wrapped_mine].
Proof.
  split; [reflexivity|]. split; [eexists; split; reflexivity|].
  eapply (signature_count_mismatch (mainnet_client [sigA; sigB])
            (fresh three_inputs) root_xpub master_fp _ [sigA; sigB] []);
    [reflexivity|reflexivity|reflexivity|reflexivity|reflexivity|].
  simpl. lia.
Defined.

(** * Further properties of the code *)

(** ** More on the merge loop: what it leaves alone *)

Section MergeFrame.

Lemma same_but_sigs_refl i : same_but_sigs i i.
Proof. done. Qed.

Lemma same_but_sigs_set i pubkey s : same_but_sigs i (set_partial_sig i pubkey s).
Proof. done. Qed.

Lemma list_remove_elem_of `{EqDecision A} (x : A) l l' :
  list_remove x l = Ok l' -> forall y, y ∈ l' -> y ∈ l.
Proof.
  revert l'. induction l as [|a l IH]; intros l' Hr y Hy; [done|].
  simpl in Hr. destruct (decide (a = x)) as [->|Hne].
  - injection Hr as <-. apply elem_of_cons. by right.
  - destruct (list_remove x l) as [l''|] eqn:Hl; [|done]. simpl in Hr.
    injection Hr as <-. apply elem_of_cons in Hy as [->|Hy].
    + apply elem_of_cons. by left.
    + apply elem_of_cons. right. by apply (IH l'').
Qed.

Lemma list_remove_absent `{EqDecision A} (x : A) l :
  x ∉ l -> list_remove x l = Raise (ValueError "list.remove(x): x not in list").
Proof.
  induction l as [|a l IH]; intros Hx; [done|]. simpl.
  rewrite decide_False by (intros ->; apply Hx, elem_of_cons; by left).
  rewrite IH; [done|]. intros Hin. apply Hx, elem_of_cons. by right.
Qed.

Lemma list_remove_first `{EqDecision A} (x : A) l :
  x ∈ l ->
  exists before after,
    l = before ++ x :: after /\ (x ∉ before) /\
    list_remove x l = Ok (before ++ after).
Proof.
  induction l as [|a l IH]; intros Hx; [by apply elem_of_nil in Hx|]. simpl.
  destruct (decide (a = x)) as [->|Hne].
  - exists [], l. split; [done|]. split; [apply not_elem_of_nil|done].
  - apply elem_of_cons in Hx as [->|Hx]; [done|].
    destruct (IH Hx) as (before & after & -> & Hnot & ->).
    exists (a :: before), after. split; [done|]. split; [|done].
    intros Hin. apply elem_of_cons in Hin as [->|Hin]; done.
Qed.

(** What one iteration can do to its input, and to the signature list. *)
Lemma merge_one_effect master_fp psbt_in vars :
  let out := merge_one master_fp psbt_in vars in
  (out.2 = psbt_in \/
   exists pubkey s path rest,
     hd_keypaths psbt_in = (pubkey, master_fp :: path) :: rest /\
     head (signatures vars) = Some s /\
     out.2 = set_partial_sig psbt_in pubkey (s ++ [x01])) /\
  (forall vars', out.1 = Ok vars' ->
     forall s, s ∈ signatures vars' -> s ∈ signatures vars).
Proof.
  unfold merge_one, dict_keys.
  destruct (hd_keypaths psbt_in) as [|[pubkey entry] rest] eqn:Hk;
    [|destruct (signatures vars) as [|s sigs] eqn:Hs]; simpl.
  - split; [by left|]. intros vars'. destruct (sig vars) as [s|]; [|done].
    destruct (list_remove s (signatures vars)) as [l|] eqn:Hl; [|done].
    simpl. intros [= <-] x Hx. simpl in Hx. by eapply list_remove_elem_of.
  - split; [by left|]. intros vars'. by destruct (sig vars).
  - rewrite decide_True by done. simpl.
    destruct entry as [|fp path]; [split; [by left|done]|].
    rewrite py_tuple_index_0_cons. simpl.
    rewrite decide_True by done. simpl. split.
    + destruct (Z.eqb_spec fp master_fp) as [->|_]; [right|by left].
      by exists pubkey, s, path, rest.
    + intros vars' [= <-] x Hx. simpl in Hx. apply elem_of_cons. by right.
Qed.

Lemma merge_loop_frame master_fp ins vars :
  Forall2 same_but_sigs ins (merge_loop master_fp ins vars).2.
Proof.
  revert vars. induction ins as [|i ins IH]; intros vars; simpl; [constructor|].
  destruct (merge_one_effect master_fp i vars) as [Hi _]. simpl in Hi.
  assert (same_but_sigs i (merge_one master_fp i vars).2) as Hsame.
  { destruct Hi as [->|(pubkey & s & path & rest & _ & _ & ->)]; done. }
  destruct (merge_one master_fp i vars) as [[vars'|e] i']; simpl in *.
  - specialize (IH vars'). destruct (merge_loop master_fp ins vars') as [r ins'].
    simpl in *. by constructor.
  - constructor; [done|]. apply Forall_Forall2_diag, Forall_forall. done.
Qed.

End MergeFrame.

Section MergeWrites.

(** X14. Whatever the loop does, also when it raises: the entry of an
    input's [partial_sigs] under a key is either what it was, or the key is
    the input's first public key, its stored fingerprint is the master
    fingerprint, and the entry is one of the device's signatures followed by
    the byte 0x01. Signatures stored under other keys are kept. *)
Theorem merge_writes_only_device_signatures (master_fp : Z)
    (ins : list PartiallySignedInput) (vars : MergeVars)
    (k : nat) (i i' : PartiallySignedInput) (pubkey : bytes) :
  ins !! k = Some i ->
  (merge_loop master_fp ins vars).2 !! k = Some i' ->
  partial_sigs i' !! pubkey = partial_sigs i !! pubkey \/
  ((exists path rest, hd_keypaths i = (pubkey, master_fp :: path) :: rest) /\
   exists s, s ∈ signatures vars /\
             partial_sigs i' !! pubkey = Some (s ++ [x01])).
Proof.
  revert vars k. induction ins as [|a ins IH]; intros vars k Hk Hk'; [done|].
  simpl in Hk'. destruct (merge_one_effect master_fp a vars) as [Ha Hsub].
  simpl in Ha, Hsub.
  destruct (merge_one master_fp a vars) as [[vars'|e] a'] eqn:Hone; simpl in *.
  - destruct (merge_loop master_fp ins vars') as [r ins'] eqn:Hloop.
    destruct k as [|k]; simpl in *.
    + injection Hk as ->. injection Hk' as ->.
      destruct Ha as [->|(pk & s & path & rest & Hkeys & Hs & ->)]; [by left|].
      destruct (decide (pk = pubkey)) as [->|Hne].
      * right. split; [by exists path, rest|]. exists s. split.
        -- destruct (signatures vars); [done|]. injection Hs as ->.
           apply elem_of_cons. by left.
        -- simpl. apply lookup_insert_eq.
      * left. simpl. by apply lookup_insert_ne.
    + specialize (IH vars' k Hk). rewrite Hloop in IH. simpl in IH.
      destruct (IH Hk') as [Hsame|(Hkeys & s & Hs & Hnew)]; [by left|].
      right. split; [done|]. exists s. split; [|done]. by apply (Hsub vars').
  - destruct k as [|k]; simpl in *.
    + injection Hk as ->. injection Hk' as ->.
      destruct Ha as [->|(pk & s & path & rest & Hkeys & Hs & ->)]; [by left|].
      destruct (decide (pk = pubkey)) as [->|Hne].
      * right. split; [by exists path, rest|]. exists s. split.
        -- destruct (signatures vars); [done|]. injection Hs as ->.
           apply elem_of_cons. by left.
        -- simpl. apply lookup_insert_eq.
      * left. simpl. by apply lookup_insert_ne.
    + left. congruence.
Qed.

End MergeWrites.

(** ** More on the previous-transaction resolver *)

Section GetTxEdges.
Context `{HwiLib}.

Lemma scan_inputs_no_utxo ins txhash found :
  Forall (fun i => non_witness_utxo i = None) ins ->
  scan_inputs ins txhash found = Ok found.
Proof.
  induction 1 as [|i ins Hi _ IH]; [done|]. simpl. by rewrite Hi.
Qed.

Lemma scan_inputs_bad_hash ins txhash found e :
  requested_hash txhash = Raise e ->
  Exists (fun i => is_Some (non_witness_utxo i)) ins ->
  scan_inputs ins txhash found = Raise e.
Proof.
  intros Hh. induction 1 as [i ins [u Hu]|i ins _ IH]; simpl.
  - by rewrite Hu, Hh.
  - destruct (non_witness_utxo i); [by rewrite Hh|done].
Qed.

Lemma scan_inputs_frame ins ins' txhash found :
  Forall2 (fun a b => non_witness_utxo b = non_witness_utxo a) ins ins' ->
  scan_inputs ins txhash found = scan_inputs ins' txhash found.
Proof.
  intros Hall. revert found.
  induction Hall as [|a b ins ins' Hab _ IH]; intros found; [done|].
  simpl. rewrite Hab. destruct (non_witness_utxo a) as [u|]; [|done].
  destruct (requested_hash txhash) as [h|]; [|done]. simpl.
  by destruct (sha256 u =? h).
Qed.

(** X1. When no input of the PSBT holds a non-witness UTXO, the lookup
    raises the not-found ValueError for every requested hash: the hash is
    not even decoded, so a malformed one gets the same answer. *)
Theorem get_tx_without_embedded_tx (psbt : PSBT) (txhash : string) :
  (forall i, i ∈ inputs psbt -> non_witness_utxo i = None) ->
  get_tx psbt txhash =
    Raise (ValueError ("TX " +:+ txhash +:+ " not found in PSBT")).
Proof.
  intros Hnone. unfold get_tx.
  rewrite scan_inputs_no_utxo; [done|]. by apply Forall_forall.
Qed.

(** X2. When the requested hash does not decode (bad hex, or the helper
    rejects the bytes) and some input holds a non-witness UTXO, the lookup
    raises the decoder's exception, not the not-found error. *)
Theorem get_tx_undecodable_hash (psbt : PSBT) (txhash : string) (e : exn)
    (i : PartiallySignedInput) (u : CTransaction) :
  requested_hash txhash = Raise e ->
  i ∈ inputs psbt ->
  non_witness_utxo i = Some u ->
  get_tx psbt txhash = Raise e.
Proof.
  intros Hh Hi Hu. unfold get_tx.
  rewrite (scan_inputs_bad_hash _ _ _ e); [done|done|].
  apply Exists_exists. exists i. split; [done|]. by exists u.
Qed.

(** X3. The lookup reads nothing but the non-witness UTXOs: two PSBTs
    whose inputs agree on them, position by position, give the same answer
    for every hash. *)
Theorem get_tx_reads_only_non_witness_utxo (psbt psbt' : PSBT) (txhash : string) :
  non_witness_utxo <$> inputs psbt' = non_witness_utxo <$> inputs psbt ->
  get_tx psbt' txhash = get_tx psbt txhash.
Proof.
  intros Heq. unfold get_tx.
  rewrite (scan_inputs_frame (inputs psbt') (inputs psbt)); [done|].
  remember (inputs psbt') as l' eqn:El'. remember (inputs psbt) as l eqn:El.
  clear El El'. revert l Heq.
  induction l' as [|a l' IH]; intros [|b l] Heq; simpl in Heq;
    try discriminate Heq.
  - constructor.
  - injection Heq as Hab Hrest. constructor; [done|]. by apply IH.
Qed.

End GetTxEdges.

(** ** More on the whole call *)

Section SignTxOutcomes.
Context `{HwiLib}.

(** The three ways a call can end, with the heap it leaves. *)
Lemma sign_tx_outcome self h :
  (exists e, sign_tx self h = (Raise e, after_fingerprint h)) \/
  (exists fp req e,
     build_request self fp (the_psbt h) = Ok req /\
     sign_tx self h = (Raise e, after_signing self h (the_psbt h) req)) \/
  (exists fp req sigs ser,
     build_request self fp (the_psbt h) = Ok req /\
     device_answer self (the_psbt h) req = Ok (sigs, ser) /\
     let out := merge_loop fp (inputs (the_psbt h))
                           {| signatures := sigs; sig := None |} in
     let psbt' := {| tx := tx (the_psbt h); inputs := out.2 |} in
     sign_tx self h =
       (out.1 ;; Ok [("psbt", psbt_serialize psbt')],
        after_signing self h psbt' req)).
Proof.
  destruct (get_public_node (client self) [0]) as [xpub|e] eqn:Hx;
    [|left; exists e; by apply sign_tx_no_xpub].
  destruct (get_xpub_fingerprint xpub) as [fp|e] eqn:Hf;
    [|left; exists e; by eapply sign_tx_no_fingerprint].
  destruct (build_request self fp (the_psbt h)) as [req|e] eqn:Hb;
    [|left; exists e; by eapply sign_tx_build_raise].
  destruct (device_answer self (the_psbt h) req) as [[sigs ser]|e] eqn:Hd.
  - right. right. exists fp, req, sigs, ser. split; [done|]. split; [done|].
    by apply (sign_tx_device_answer self h xpub fp req sigs ser).
  - right. left. exists fp, req, e. split; [done|].
    by eapply sign_tx_device_raise.
Qed.

Lemma sign_tx_frame self h :
  tx (the_psbt (sign_tx self h).2) = tx (the_psbt h) /\
  Forall2 same_but_sigs (inputs (the_psbt h)) (inputs (the_psbt (sign_tx self h).2)).
Proof.
  destruct (sign_tx_outcome self h)
    as [[e ->]|[(fp & req & e & _ & ->)|(fp & req & sigs & ser & _ & _ & Hr)]].
  - split; [done|]. apply Forall_Forall2_diag, Forall_forall. done.
  - split; [done|]. apply Forall_Forall2_diag, Forall_forall. done.
  - simpl in Hr. rewrite Hr. split; [done|]. simpl. apply merge_loop_frame.
Qed.

(** X13. Whatever the outcome of a call, the PSBT object keeps its
    unsigned transaction and its number of inputs, and every input keeps
    its UTXOs and its HD key paths: only [partial_sigs] can differ. *)
Theorem sign_tx_changes_only_partial_sigs (self : TrezorClient) (h : Heap) :
  let psbt' := the_psbt (sign_tx self h).2 in
  tx psbt' = tx (the_psbt h) /\
  length (inputs psbt') = length (inputs (the_psbt h)) /\
  forall k i, inputs (the_psbt h) !! k = Some i ->
    exists i', inputs psbt' !! k = Some i' /\
               non_witness_utxo i' = non_witness_utxo i /\
               witness_utxo i' = witness_utxo i /\
               hd_keypaths i' = hd_keypaths i.
Proof.
  destruct (sign_tx_frame self h) as [Htx Hins]. cbn zeta.
  split; [done|]. split; [symmetry; by eapply Forall2_length|].
  intros k i Hk.
  destruct (Forall2_lookup_l _ _ _ k i Hins Hk) as (i' & Hi' & Hsame).
  by exists i'.
Qed.

(** X4. After any call the resolver answers as before it: the merge
    does not change what [get_tx] finds. *)
Theorem get_tx_stable_under_sign_tx (self : TrezorClient) (h : Heap) (txhash : string) :
  get_tx (the_psbt (sign_tx self h).2) txhash = get_tx (the_psbt h) txhash.
Proof.
  destruct (sign_tx_frame self h) as [_ Hins]. unfold get_tx.
  rewrite (scan_inputs_frame (inputs (the_psbt h))
             (inputs (the_psbt (sign_tx self h).2))); [done|].
  eapply Forall2_impl; [exact Hins|]. by intros a b (? & _).
Qed.

(** X17. Every call sends the fingerprint query for path [0] first and
    then at most one signing request; the request names the coin "Testnet"
    on a testnet client and "Bitcoin" otherwise and carries the version and
    lock time of the unsigned transaction. Earlier log entries are kept. *)
Theorem sign_tx_rpc_discipline (self : TrezorClient) (h : Heap) :
  rpc_log (sign_tx self h).2 = rpc_log h ++ [EvGetPublicNode [0]] \/
  exists ins outs,
    rpc_log (sign_tx self h).2 =
      rpc_log h ++ [EvGetPublicNode [0];
                    EvSignTx (if is_testnet self then "Testnet" else "Bitcoin")
                             ins outs (nVersion (tx (the_psbt h)))
                             (nLockTime (tx (the_psbt h)))].
Proof.
  destruct (sign_tx_outcome self h)
    as [[e ->]|[(fp & req & e & _ & ->)|(fp & req & sigs & ser & _ & _ & Hr)]].
  - by left.
  - right. exists req.1, req.2. simpl. rewrite <- app_assoc. simpl.
    unfold sign_event, coin_name. by destruct (is_testnet self).
  - right. exists req.1, req.2. simpl in Hr. rewrite Hr. simpl.
    rewrite <- app_assoc. simpl.
    unfold sign_event, coin_name. by destruct (is_testnet self).
Qed.

(** X18. When the device does not return its root key, or the key's
    fingerprint cannot be derived, the call raises that exception at once:
    the builder does not run, no signing request is sent and the PSBT is
    untouched. *)
Theorem sign_tx_without_fingerprint (self : TrezorClient) (h : Heap) (e : exn) :
  get_public_node (client self) [0] = Raise e \/
  (exists xpub, get_public_node (client self) [0] = Ok xpub /\
                get_xpub_fingerprint xpub = Raise e) ->
  sign_tx self h =
    (Raise e,
     {| the_psbt := the_psbt h; rpc_log := rpc_log h ++ [EvGetPublicNode [0]] |}).
Proof.
  intros [Hx|(xpub & Hx & Hf)].
  - by apply sign_tx_no_xpub.
  - by eapply sign_tx_no_fingerprint.
Qed.

(** X19. When the signing request itself raises (the device refuses, is
    unplugged, or passes on a failed previous-transaction lookup), the call
    raises the same exception and the PSBT is untouched: no signature is
    merged. *)
Theorem sign_tx_device_failure (self : TrezorClient) (h : Heap)
    (xpub : string) (fp : Z) (req : list TxInputType * list TxOutputType)
    (e : exn) :
  get_public_node (client self) [0] = Ok xpub ->
  get_xpub_fingerprint xpub = Ok fp ->
  build_request self fp (the_psbt h) = Ok req ->
  trezor_sign_tx (client self) (get_tx (the_psbt h))
                 (coin_name (is_testnet self)) req.1 req.2
                 (nVersion (tx (the_psbt h))) (nLockTime (tx (the_psbt h)))
    = Raise e ->
  (sign_tx self h).1 = Raise e /\
  the_psbt (sign_tx self h).2 = the_psbt h.
Proof.
  intros Hx Hf Hb Hd.
  by rewrite (sign_tx_device_raise self h xpub fp req e).
Qed.

End SignTxOutcomes.

(** ** More on the request builder *)

Section BuilderEdges.
Context `{HwiLib}.

Lemma py_index_out_of_range {A} (l : list A) (i : Z) :
  Z.of_nat (length l) <= i \/ i < - Z.of_nat (length l) ->
  py_index l i = Raise (IndexError "list index out of range").
Proof.
  intros Hi. unfold py_index.
  destruct (Z.ltb_spec i 0) as [Hneg|Hpos].
  - destruct (Z.ltb_spec (i + Z.of_nat (length l)) 0); [done|lia].
  - destruct (Z.ltb_spec i 0); [lia|].
    destruct (Z.leb_spec (Z.of_nat (length l)) i); [done|lia].
Qed.

Lemma py_index_raise {A} (l : list A) (i : Z) e :
  py_index l i = Raise e -> e = IndexError "list index out of range".
Proof.
  unfold py_index. destruct (_ || _); [by intros [= <-]|].
  destruct (l !! _); [done|by intros [= <-]].
Qed.

Lemma for_each_raise_inv {A B} (f : A -> result B) l e :
  for_each f l = Raise e -> exists x, x ∈ l /\ f x = Raise e.
Proof.
  induction l as [|a l IH]; [done|]. simpl.
  destruct (f a) as [b|e'] eqn:Ha; simpl.
  - destruct (for_each f l) as [bs|e'']; [done|]. simpl. intros [= <-].
    destruct IH as (x & Hx & Hfx); [done|]. exists x. split; [|done].
    apply elem_of_cons. by right.
  - intros [= <-]. exists a. split; [|done]. apply elem_of_cons. by left.
Qed.

Lemma for_each_is_Ok {A B} (f : A -> result B) (g : A -> bool) l :
  (forall x, is_Ok (f x) = g x) ->
  is_Ok (for_each f l) = forallb g l.
Proof.
  intros Hfg. induction l as [|a l IH]; [done|]. simpl.
  rewrite <- Hfg, <- IH.
  destruct (f a); simpl; [|done]. by destruct (for_each f l).
Qed.

Lemma input_address_n_raise master_fp psbt_in e :
  input_address_n master_fp psbt_in = Raise e -> builder_error e.
Proof.
  unfold input_address_n, dict_keys, builder_error.
  destruct (hd_keypaths psbt_in) as [|[pubkey entry] [|second rest]]; simpl.
  - intros [= <-]. right. by left.
  - rewrite decide_True by done. simpl.
    destruct entry as [|fp path].
    + intros [= <-]. right. right. by left.
    + rewrite py_tuple_index_0_cons. simpl. by destruct (fp =? master_fp).
  - intros [= <-]. by left.
Qed.

Lemma build_input_raise master_fp psbt_in txin e :
  build_input master_fp psbt_in txin = Raise e -> builder_error e.
Proof.
  intros Hr. apply build_input_raise_cases in Hr as [Hk|[_ Ha]].
  - by eapply input_address_n_raise.
  - unfold input_amount in Ha.
    destruct (non_witness_utxo psbt_in) as [u|].
    + destruct (py_index (vout u) (n (prevout txin))) as [o|e'] eqn:Ho; [done|].
      simpl in Ha. injection Ha as <-. apply py_index_raise in Ho as ->.
      right. right. right. by left.
    + by destruct (witness_utxo psbt_in).
Qed.

Lemma build_output_is_Ok net out :
  is_Ok (build_output net out) = supported_output out.
Proof.
  unfold build_output, output_address, supported_output.
  destruct (is_p2pkh out); [done|]. destruct (is_p2sh out); [done|].
  by destruct (is_witness out) as [[ver prog]|].
Qed.

Lemma build_output_raise net out e :
  build_output net out = Raise e -> e = TypeError "Output is not an address".
Proof.
  unfold build_output, output_address.
  destruct (is_p2pkh out); [done|]. destruct (is_p2sh out); [done|].
  destruct (is_witness out) as [[ver prog]|]; [done|]. by intros [= <-].
Qed.

(** X5. When the input loop succeeds it has built one descriptor per pair
    of PSBT input and transaction input, no more: their number is the
    smaller of the two lengths, and descriptor k carries the reversed
    serialized prev-hash, the prev-index and the sequence of transaction
    input k, with no script_sig. *)
Theorem build_inputs_positional (master_fp : Z) (psbt : PSBT)
    (ins : list TxInputType) :
  build_inputs master_fp psbt = Ok ins ->
  length ins = Nat.min (length (inputs psbt)) (length (vin (tx psbt))) /\
  forall k psbt_in txin,
    inputs psbt !! k = Some psbt_in ->
    vin (tx psbt) !! k = Some txin ->
    exists d, ins !! k = Some d /\
              build_input master_fp psbt_in txin = Ok d /\
              prev_hash d = reverse (ser_uint256 (hash (prevout txin))) /\
              prev_index d = n (prevout txin) /\
              sequence d = nSequence txin /\
              script_sig d = None.
Proof.
  intros Hb. unfold build_inputs in Hb. split.
  - rewrite (for_each_Ok_length _ _ _ Hb). apply length_zip_with.
  - intros k psbt_in txin Hi Ht.
    destruct (for_each_Ok_lookup _ _ _ k (psbt_in, txin) Hb) as (d & Hd & Hbuilt).
    { apply lookup_zip_with_Some. by exists psbt_in, txin. }
    exists d. split; [done|]. split; [done|]. simpl in Hbuilt.
    pose proof (build_input_Ok_inv _ _ _ _ Hbuilt) as (_ & _ & _ & Hh & Hn & Hs).
    split; [done|]. split; [done|]. split; [done|].
    unfold build_input in Hbuilt.
    destruct (input_address_n master_fp psbt_in); [|done].
    destruct (input_amount psbt_in txin); [|done].
    simpl in Hbuilt. by injection Hbuilt as <-.
Qed.

(** X6. PSBT inputs beyond the last transaction input are never looked at
    by the builder: the request is the one built without them, so an input
    there that has no key, or several, is not reported. *)
Theorem builder_ignores_unpaired_inputs (self : TrezorClient) (master_fp : Z)
    (t : CTransaction) (ins extra : list PartiallySignedInput) :
  length ins = length (vin t) ->
  build_request self master_fp {| tx := t; inputs := ins ++ extra |} =
  build_request self master_fp {| tx := t; inputs := ins |}.
Proof.
  intros Hlen. unfold build_request, build_inputs, build_outputs. simpl.
  rewrite zip_with_app_l, Hlen, firstn_all, drop_all, zip_with_nil_r.
  by rewrite app_nil_r.
Qed.

(** X8. For an input with one well-formed key entry: with a non-witness
    UTXO whose output list does not reach the prev-index (at or past its
    length, or below minus its length), the builder raises IndexError;
    without a non-witness UTXO the prev-index is never used and the
    descriptor is always built. *)
Theorem prev_index_bounds (master_fp : Z) (psbt_in : PartiallySignedInput)
    (txin : CTxIn) (pubkey : bytes) (stored : Z) (path : list Z) :
  hd_keypaths psbt_in = [(pubkey, stored :: path)] ->
  (forall u, non_witness_utxo psbt_in = Some u ->
     Z.of_nat (length (vout u)) <= n (prevout txin) \/
     n (prevout txin) < - Z.of_nat (length (vout u)) ->
     build_input master_fp psbt_in txin =
       Raise (IndexError "list index out of range")) /\
  (non_witness_utxo psbt_in = None ->
     exists d, build_input master_fp psbt_in txin = Ok d).
Proof.
  intros Hk. split.
  - intros u Hu Hn. unfold build_input.
    rewrite (input_address_n_single _ _ _ _ _ Hk). simpl.
    unfold input_amount. rewrite Hu. by rewrite py_index_out_of_range.
  - intros Hu. unfold build_input.
    rewrite (input_address_n_single _ _ _ _ _ Hk). simpl.
    unfold input_amount. rewrite Hu.
    destruct (witness_utxo psbt_in); simpl; by eexists.
Qed.

(** X9. A single key entry whose tuple is empty (no fingerprint) makes the
    builder raise IndexError "tuple index out of range", whatever the UTXOs;
    in the merge loop such an input, when a signature is available, raises
    the same IndexError, and is left as it was. *)
Theorem empty_key_entry (master_fp : Z) (psbt_in : PartiallySignedInput)
    (pubkey : bytes) :
  hd_keypaths psbt_in = [(pubkey, [])] ->
  (forall txin, build_input master_fp psbt_in txin =
                  Raise (IndexError "tuple index out of range")) /\
  (forall s sigs v,
     merge_one master_fp psbt_in {| signatures := s :: sigs; sig := v |} =
       (Raise (IndexError "tuple index out of range"), psbt_in)).
Proof.
  intros Hk. split.
  - intros txin. unfold build_input, input_address_n, dict_keys. rewrite Hk.
    simpl. by rewrite decide_True.
  - intros s sigs v. unfold merge_one, dict_keys. rewrite Hk. simpl.
    by rewrite decide_True.
Qed.

(** X10. When the output loop succeeds it has built one descriptor per
    transaction output, in order: descriptor k carries the amount of output
    k and the address resolved from its script. *)
Theorem build_outputs_positional (net : Network) (psbt : PSBT)
    (outs : list TxOutputType) :
  build_outputs net psbt = Ok outs ->
  length outs = length (vout (tx psbt)) /\
  out_amount <$> outs = nValue <$> vout (tx psbt) /\
  forall k out, vout (tx psbt) !! k = Some out ->
    exists d, outs !! k = Some d /\ output_address net out = Ok (address d).
Proof.
  unfold build_outputs. generalize (vout (tx psbt)). intros l. revert outs.
  induction l as [|o l IH]; intros outs Hb; simpl in Hb.
  - injection Hb as <-. done.
  - destruct (build_output net o) as [d|] eqn:Hd; [|done]. simpl in Hb.
    destruct (for_each (build_output net) l) as [ds|]; [|done]. simpl in Hb.
    injection Hb as <-. destruct (IH ds eq_refl) as (Hlen & Hamt & Hpos).
    unfold build_output in Hd.
    destruct (output_address net o) as [addr|] eqn:Haddr; [|done].
    simpl in Hd. injection Hd as <-.
    split; [simpl; by rewrite Hlen|]. split; [by rewrite !fmap_cons, Hamt|].
    intros [|k] out Hk; simpl in *.
    + injection Hk as <-. by eexists.
    + by apply Hpos.
Qed.

(** X11. The output loop succeeds exactly when every output script is
    P2PKH, P2SH or a witness program; the only exception it can raise is
    TypeError "Output is not an address". *)
Theorem build_outputs_supported (net : Network) (psbt : PSBT) :
  is_Ok (build_outputs net psbt) = forallb supported_output (vout (tx psbt)) /\
  forall e, build_outputs net psbt = Raise e ->
            e = TypeError "Output is not an address".
Proof.
  unfold build_outputs. split.
  - apply for_each_is_Ok. intros out. apply build_output_is_Ok.
  - intros e He. apply for_each_raise_inv in He as (out & _ & He).
    by eapply build_output_raise.
Qed.

(** X12. The builder raises nothing but: TypeError "Cannot sign multisig
    yet", TypeError "All inputs must have a key for this device",
    IndexError "tuple index out of range" (an empty key tuple),
    IndexError "list index out of range" (a prev-index outside the
    non-witness UTXO's outputs) and TypeError "Output is not an
    address". *)
Theorem build_request_errors (self : TrezorClient) (master_fp : Z)
    (psbt : PSBT) (e : exn) :
  build_request self master_fp psbt = Raise e ->
  e = TypeError "Cannot sign multisig yet" \/
  e = TypeError "All inputs must have a key for this device" \/
  e = IndexError "tuple index out of range" \/
  e = IndexError "list index out of range" \/
  e = TypeError "Output is not an address".
Proof.
  unfold build_request, build_inputs, build_outputs.
  destruct (for_each _ (zip _ _)) as [ins|e'] eqn:Hins; simpl.
  - destruct (for_each (build_output _) _) as [outs|e'] eqn:Houts; [done|].
    simpl. intros [= <-]. apply for_each_raise_inv in Houts as (out & _ & He).
    apply build_output_raise in He as ->. right. right. right. by right.
  - intros [= <-]. apply for_each_raise_inv in Hins as ([i txin] & _ & He).
    by apply build_input_raise in He.
Qed.

End BuilderEdges.

(** ** More on merging *)

Section MergeOutcomes.
Context `{HwiLib}.

Lemma merged_hd_keypaths master_fp i s :
  hd_keypaths (merged master_fp i s) = hd_keypaths i.
Proof.
  unfold merged.
  destruct (hd_keypaths i) as [|[pubkey [|fp path]] rest] eqn:Hk; try done.
  by destruct (fp =? master_fp).
Qed.

Lemma merged_twice master_fp i s s' :
  merged master_fp (merged master_fp i s) s' = merged master_fp i s'.
Proof.
  unfold merged at 1. rewrite merged_hd_keypaths. unfold merged.
  destruct (hd_keypaths i) as [|[pubkey [|fp path]] rest] eqn:Hk; try done.
  destruct (fp =? master_fp); [|done].
  unfold set_partial_sig. simpl. f_equal. apply insert_insert_eq.
Qed.

Lemma merged_foreign master_fp i s : foreign master_fp i -> merged master_fp i s = i.
Proof.
  intros (pubkey & fp & path & rest & Hk & Hne). unfold merged. rewrite Hk.
  by destruct (Z.eqb_spec fp master_fp).
Qed.

Lemma zip_with_merged_twice master_fp ins sigs sigs' :
  (length ins <= length sigs)%nat ->
  zip_with (merged master_fp) (zip_with (merged master_fp) ins sigs) sigs' =
  zip_with (merged master_fp) ins sigs'.
Proof.
  revert sigs sigs'. induction ins as [|i ins IH]; intros sigs sigs' Hlen; [done|].
  destruct sigs as [|s sigs]; [simpl in Hlen; lia|].
  destruct sigs' as [|s' sigs']; [done|]. simpl.
  rewrite merged_twice, IH; [done|]. simpl in Hlen. lia.
Qed.

Lemma zip_with_merged_foreign master_fp ins sigs :
  Forall (foreign master_fp) ins ->
  (length ins <= length sigs)%nat ->
  zip_with (merged master_fp) ins sigs = ins.
Proof.
  intros Hall. revert sigs. induction Hall as [|i ins Hi _ IH]; intros sigs Hlen;
    [done|].
  destruct sigs as [|s sigs]; [simpl in Hlen; lia|]. simpl.
  rewrite merged_foreign, IH; [done| |done]. simpl in Hlen. lia.
Qed.

Lemma keyed_merged master_fp ins sigs :
  Forall keyed ins -> Forall keyed (zip_with (merged master_fp) ins sigs).
Proof.
  intros Hall. revert sigs. induction Hall as [|i ins Hi _ IH]; intros [|s sigs];
    simpl; try constructor; [|done].
  unfold keyed. rewrite merged_hd_keypaths. exact Hi.
Qed.

Lemma build_input_Ok_single fp psbt_in txin d :
  build_input fp psbt_in txin = Ok d ->
  exists pubkey stored path, hd_keypaths psbt_in = [(pubkey, stored :: path)].
Proof.
  intros Hd. apply build_input_Ok_inv in Hd as (Hpath & _).
  unfold input_address_n, dict_keys in Hpath.
  destruct (hd_keypaths psbt_in) as [|[pubkey entry] [|second rest]] eqn:Hk;
    [done| |done].
  destruct entry as [|stored path].
  - simpl in Hpath. rewrite decide_True in Hpath by done. done.
  - by exists pubkey, stored, path.
Qed.

(** X15. Merging is last-write-wins on the inputs of this device: running
    the loop with signatures [sigs] and then again with [sigs'] leaves the
    inputs as one run with [sigs'] alone does; in particular a second run
    with the same signatures changes nothing. *)
Theorem merge_again_overwrites (master_fp : Z)
    (ins : list PartiallySignedInput) (sigs sigs' : list bytes) :
  Forall keyed ins ->
  (length ins <= length sigs)%nat ->
  (length ins <= length sigs')%nat ->
  let once := (merge_loop master_fp ins {| signatures := sigs; sig := None |}).2 in
  is_Ok (merge_loop master_fp once {| signatures := sigs'; sig := None |}).1 = true /\
  (merge_loop master_fp once {| signatures := sigs'; sig := None |}).2 =
    (merge_loop master_fp ins {| signatures := sigs'; sig := None |}).2 /\
  (merge_loop master_fp once {| signatures := sigs; sig := None |}).2 = once.
Proof.
  intros Hkeyed Hlen Hlen'. cbn zeta.
  destruct (merge_loop_enough master_fp ins sigs None Hkeyed Hlen) as [v ->].
  destruct (merge_loop_enough master_fp ins sigs' None Hkeyed Hlen') as [v' ->].
  cbn [snd].
  assert (length (zip_with (merged master_fp) ins sigs) = length ins) as Hsame.
  { rewrite length_zip_with. lia. }
  destruct (merge_loop_enough master_fp (zip_with (merged master_fp) ins sigs)
              sigs' None) as [w ->]; [by apply keyed_merged|lia|].
  destruct (merge_loop_enough master_fp (zip_with (merged master_fp) ins sigs)
              sigs None) as [w' ->]; [by apply keyed_merged|lia|].
  cbn [fst snd]. split; [done|].
  by rewrite !zip_with_merged_twice.
Qed.

(** X16. When every input's key belongs to another device and the device
    answers with enough signatures, the call returns normally and the PSBT
    is returned exactly as it was given: signatures are consumed but none
    is stored. *)
Theorem sign_tx_foreign_inputs_only (self : TrezorClient) (h : Heap)
    (xpub : string) (fp : Z) (req : list TxInputType * list TxOutputType)
    (sigs : list bytes) (ser : bytes) :
  get_public_node (client self) [0] = Ok xpub ->
  get_xpub_fingerprint xpub = Ok fp ->
  build_request self fp (the_psbt h) = Ok req ->
  device_answer self (the_psbt h) req = Ok (sigs, ser) ->
  Forall (foreign fp) (inputs (the_psbt h)) ->
  (length (inputs (the_psbt h)) <= length sigs)%nat ->
  (sign_tx self h).1 = Ok [("psbt", psbt_serialize (the_psbt h))] /\
  the_psbt (sign_tx self h).2 = the_psbt h.
Proof.
  intros Hx Hf Hb Hd Hforeign Hlen.
  rewrite (sign_tx_device_answer self h xpub fp req sigs ser) by done.
  destruct (merge_loop_enough fp (inputs (the_psbt h)) sigs None) as [v ->];
    [|done|].
  { eapply Forall_impl; [exact Hforeign|].
    intros i (pubkey & stored & path & rest & Hk & _).
    by exists pubkey, stored, path, rest. }
  cbn [fst snd the_psbt]. rewrite zip_with_merged_foreign by done.
  by destruct (the_psbt h).
Qed.

(** X20. The normal case. When the builder succeeds on a PSBT with as many
    inputs as its transaction and the device answers with exactly one
    signature per input, the call returns the serialization of the updated
    PSBT; input k, which has a single key entry, ends with signature k
    followed by 0x01 stored under its public key if its fingerprint is the
    device's, and is unchanged otherwise. *)
Theorem sign_tx_success (self : TrezorClient) (h : Heap)
    (xpub : string) (fp : Z) (req : list TxInputType * list TxOutputType)
    (sigs : list bytes) (ser : bytes) :
  get_public_node (client self) [0] = Ok xpub ->
  get_xpub_fingerprint xpub = Ok fp ->
  build_request self fp (the_psbt h) = Ok req ->
  length (inputs (the_psbt h)) = length (vin (tx (the_psbt h))) ->
  device_answer self (the_psbt h) req = Ok (sigs, ser) ->
  length sigs = length (inputs (the_psbt h)) ->
  let psbt' := the_psbt (sign_tx self h).2 in
  (sign_tx self h).1 = Ok [("psbt", psbt_serialize psbt')] /\
  forall k i s,
    inputs (the_psbt h) !! k = Some i ->
    sigs !! k = Some s ->
    exists pubkey stored path i',
      hd_keypaths i = [(pubkey, stored :: path)] /\
      inputs psbt' !! k = Some i' /\
      (stored = fp -> i' = set_partial_sig i pubkey (s ++ [x01]) /\
                      partial_sigs i' !! pubkey = Some (s ++ [x01])) /\
      (stored <> fp -> i' = i).
Proof.
  intros Hx Hf Hb Hlen Hd Hcount. cbn zeta.
  assert (exists ins, build_inputs fp (the_psbt h) = Ok ins) as [ins Hins].
  { unfold build_request in Hb.
    destruct (build_inputs fp (the_psbt h)) as [ins|]; [by eexists|done]. }
  destruct (build_inputs_Ok_keyed fp (the_psbt h) ins Hins Hlen) as [_ Hkeyed].
  rewrite (sign_tx_device_answer self h xpub fp req sigs ser) by done.
  destruct (merge_loop_enough fp (inputs (the_psbt h)) sigs None) as [v ->];
    [done|lia|].
  cbn [fst snd the_psbt inputs]. split; [done|].
  intros k i s Hi Hs.
  destruct (lookup_lt_is_Some_2 (vin (tx (the_psbt h))) k) as [txin Ht].
  { rewrite <- Hlen. by eapply lookup_lt_Some. }
  unfold build_inputs in Hins.
  destruct (for_each_Ok_lookup _ _ _ k (i, txin) Hins) as (d & _ & Hbuilt).
  { apply lookup_zip_with_Some. by exists i, txin. }
  simpl in Hbuilt.
  destruct (build_input_Ok_single _ _ _ _ Hbuilt) as (pubkey & stored & path & Hk).
  exists pubkey, stored, path, (merged fp i s). split; [done|]. split.
  - apply lookup_zip_with_Some. by exists i, s.
  - unfold merged. rewrite Hk.
    destruct (Z.eqb_spec stored fp) as [Heq|Hne]; split; try done.
    intros _. split; [done|]. simpl. apply lookup_insert_eq.
Qed.

(** X21. An input without any key entry (the builder lets one through
    only beyond the transaction's inputs) is never given a signature, and
    its iteration still runs [signatures.remove(sig)] with the previous
    value of [sig]: UnboundLocalError when no earlier iteration bound it,
    ValueError when that signature is no longer in the list, and otherwise
    the first occurrence of it is removed, the other signatures staying in
    order. A PSBT whose first input has no key therefore always ends the
    loop with UnboundLocalError, untouched. *)
Theorem merge_one_keyless (master_fp : Z) (psbt_in : PartiallySignedInput)
    (vars : MergeVars) :
  hd_keypaths psbt_in = [] ->
  (merge_one master_fp psbt_in vars).2 = psbt_in /\
  (sig vars = None ->
     (merge_one master_fp psbt_in vars).1 = Raise (UnboundLocalError "sig")) /\
  (forall s, sig vars = Some s -> s ∉ signatures vars ->
     (merge_one master_fp psbt_in vars).1 =
       Raise (ValueError "list.remove(x): x not in list")) /\
  (forall s, sig vars = Some s -> s ∈ signatures vars ->
     exists before after,
       signatures vars = before ++ s :: after /\
       (s ∉ before) /\
       (merge_one master_fp psbt_in vars).1 =
         Ok {| signatures := before ++ after; sig := Some s |}) /\
  (forall ins sigs,
     merge_loop master_fp (psbt_in :: ins) {| signatures := sigs; sig := None |} =
       (Raise (UnboundLocalError "sig"), psbt_in :: ins)).
Proof.
  intros Hk. unfold merge_one, dict_keys. rewrite Hk. simpl.
  split; [done|]. split; [by intros ->|]. split; [|split].
  - intros s -> Hs. by rewrite list_remove_absent.
  - intros s -> Hs.
    destruct (list_remove_first s _ Hs) as (before & after & Heq & Hnot & ->).
    by exists before, after.
  - intros ins sigs. unfold merge_one, dict_keys. by rewrite Hk.
Qed.

End MergeOutcomes.

(** ** get_pubkey_at_path *)

Section PubkeyProperties.
Context `{PathLib}.

(** X7. [get_pubkey_at_path] parses before it asks: a path that does not
    parse raises with no device query at all. Otherwise exactly one query
    is sent, for the parsed path; on mainnet the answer is the device's
    xpub as it is, on testnet it is its conversion by [xpub_main_2_test];
    a device failure is passed on. The PSBT is never touched. *)
Theorem get_pubkey_at_path_behaviour (self : TrezorClient) (path : string) (h : Heap) :
  (forall e, parse_path path = Raise e ->
     get_pubkey_at_path self path h = (Raise e, h)) /\
  (forall expanded,
     parse_path path = Ok expanded ->
     let h' := {| the_psbt := the_psbt h;
                  rpc_log := rpc_log h ++ [EvGetPublicNode expanded] |} in
     (forall e, get_public_node (client self) expanded = Raise e ->
        get_pubkey_at_path self path h = (Raise e, h')) /\
     (forall xpub, get_public_node (client self) expanded = Ok xpub ->
        get_pubkey_at_path self path h =
          (if is_testnet self
           then converted ← xpub_main_2_test xpub; Ok [("xpub", converted)]
           else Ok [("xpub", xpub)],
           h'))).
Proof.
  unfold get_pubkey_at_path, mbind, py_bind, mret, py_ret, log_rpc, lift.
  split.
  - intros e ->. done.
  - intros expanded ->. cbn zeta. split.
    + intros e ->. done.
    + intros xpub ->. simpl. destruct (is_testnet self); [|done].
      by destruct (xpub_main_2_test xpub).
Qed.

End PubkeyProperties.

(** * Sample runs of the further properties *)

Lemma get_tx_without_embedded_tx_witness :
  (forall i, i ∈ inputs segwit_only -> non_witness_utxo i = None) /\
  get_tx segwit_only "not hex" =
    Raise (ValueError "TX not hex not found in PSBT").
Proof.
  assert (forall i, i ∈ inputs segwit_only -> non_witness_utxo i = None) as Hnone.
  { intros i Hi. apply elem_of_cons in Hi as [->|Hi]; [done|].
    by apply list_elem_of_singleton in Hi as ->. }
  split; [exact Hnone|].
  exact (get_tx_without_embedded_tx segwit_only "not hex" Hnone).
Defined.

Lemma get_tx_undecodable_hash_witness :
  requested_hash "abc" = Raise (BinasciiError "Odd-length string") /\
  legacy_other ∈ inputs two_legacy /\
  get_tx two_legacy "abc" = Raise (BinasciiError "Odd-length string").
Proof.
  assert (legacy_other ∈ inputs two_legacy) as Hin.
  { apply elem_of_cons. right. apply elem_of_cons. by left. }
  split; [reflexivity|]. split; [exact Hin|].
  apply (get_tx_undecodable_hash two_legacy "abc" _ legacy_other prev_b);
    [reflexivity|exact Hin|reflexivity].
Defined.

Lemma get_tx_reads_only_non_witness_utxo_witness :
  non_witness_utxo <$> inputs (psbt_of [signed_elsewhere] []) =
    non_witness_utxo <$> inputs (psbt_of [legacy_mine] []) /\
  get_tx (psbt_of [signed_elsewhere] []) txhash_ab =
    get_tx (psbt_of [legacy_mine] []) txhash_ab.
Proof.
  split; [reflexivity|].
  apply (get_tx_reads_only_non_witness_utxo (psbt_of [legacy_mine] [])
           (psbt_of [signed_elsewhere] []) txhash_ab).
  reflexivity.
Defined.

Lemma sign_tx_changes_only_partial_sigs_witness :
  inputs one_input !! 0%nat = Some legacy_mine /\
  exists i',
    inputs (the_psbt (sign_tx (mainnet_client [sigA]) (fresh one_input)).2) !! 0%nat
      = Some i' /\
    non_witness_utxo i' = Some prev_a /\
    witness_utxo i' = None /\
    hd_keypaths i' = [(pk1, [master_fp; 44; 0; 0])].
Proof.
  split; [reflexivity|].
  destruct (sign_tx_changes_only_partial_sigs (mainnet_client [sigA]) (fresh one_input))
    as (_ & _ & Hinputs).
  exact (Hinputs 0%nat legacy_mine eq_refl).
Defined.

Lemma merge_writes_only_device_signatures_witness :
  [signed_elsewhere] !! 0%nat = Some signed_elsewhere /\
  (merge_loop master_fp [signed_elsewhere] {| signatures := [sigA]; sig := None |}).2
    !! 0%nat = Some (set_partial_sig signed_elsewhere pk1 (sigA ++ [x01])) /\
  (partial_sigs (set_partial_sig signed_elsewhere pk1 (sigA ++ [x01])) !! pk2
     = partial_sigs signed_elsewhere !! pk2 \/
   ((exists path rest,
       hd_keypaths signed_elsewhere = (pk2, master_fp :: path) :: rest) /\
    exists s, s ∈ [sigA] /\
      partial_sigs (set_partial_sig signed_elsewhere pk1 (sigA ++ [x01])) !! pk2
        = Some (s ++ [x01]))).
Proof.
  split; [reflexivity|]. split; [reflexivity|].
  apply (merge_writes_only_device_signatures master_fp [signed_elsewhere]
           {| signatures := [sigA]; sig := None |} 0 signed_elsewhere
           (set_partial_sig signed_elsewhere pk1 (sigA ++ [x01])) pk2);
    reflexivity.
Defined.

Lemma sign_tx_without_fingerprint_witness :
  get_public_node absent_device [0] = Raise (ExternalError "no Device") /\
  sign_tx {| client := absent_device; is_testnet := false |} (fresh one_input) =
    (Raise (ExternalError "no Device"),
     {| the_psbt := one_input; rpc_log := [EvGetPublicNode [0]] |}).
Proof.
  split; [reflexivity|].
  apply (sign_tx_without_fingerprint
           {| client := absent_device; is_testnet := false |} (fresh one_input)).
  left. reflexivity.
Defined.

Lemma sign_tx_device_failure_witness :
  (exists req,
     build_request {| client := refusing_device; is_testnet := false |}
                   master_fp one_input = Ok req) /\
  (sign_tx {| client := refusing_device; is_testnet := false |} (fresh one_input)).1
    = Raise (ExternalError "Cancelled") /\
  the_psbt (sign_tx {| client := refusing_device; is_testnet := false |}
                    (fresh one_input)).2 = one_input.
Proof.
  split; [eexists; reflexivity|].
  eapply (sign_tx_device_failure
            {| client := refusing_device; is_testnet := false |} (fresh one_input)
            root_xpub master_fp); reflexivity.
Defined.

Lemma build_inputs_positional_witness :
  (exists ins, build_inputs master_fp three_inputs = Ok ins /\ length ins = 3%nat) /\
  inputs three_inputs !! 1%nat = Some segwit_mine /\
  vin (tx three_inputs) !! 1%nat = Some (txin_of 0xab 1).
Proof.
  split; [|split; reflexivity].
  eexists. split; [reflexivity|].
  eapply (build_inputs_positional master_fp three_inputs). reflexivity.
Defined.

Lemma builder_ignores_unpaired_inputs_witness :
  length [legacy_mine] = length (vin (unsigned_tx [txin_of 0xab 0] [out_p2pkh])) /\
  hd_keypaths keyless_input = [] /\
  build_request (mainnet_client []) master_fp with_surplus_input =
  build_request (mainnet_client []) master_fp
    {| tx := unsigned_tx [txin_of 0xab 0] [out_p2pkh]; inputs := [legacy_mine] |}.
Proof.
  split; [reflexivity|]. split; [reflexivity|].
  apply (builder_ignores_unpaired_inputs (mainnet_client []) master_fp
           (unsigned_tx [txin_of 0xab 0] [out_p2pkh]) [legacy_mine] [keyless_input]).
  reflexivity.
Defined.

Lemma prev_index_bounds_witness :
  hd_keypaths legacy_mine = [(pk1, master_fp :: [44; 0; 0])] /\
  non_witness_utxo legacy_mine = Some prev_a /\
  Z.of_nat (length (vout prev_a)) <= n (prevout (txin_of 0xab 2)) /\
  build_input master_fp legacy_mine (txin_of 0xab 2) =
    Raise (IndexError "list index out of range").
Proof.
  split; [reflexivity|]. split; [reflexivity|]. split; [simpl; lia|].
  apply (proj1 (prev_index_bounds master_fp legacy_mine (txin_of 0xab 2)
                  pk1 master_fp [44; 0; 0] eq_refl) prev_a eq_refl).
  left. simpl. lia.
Defined.

Lemma empty_key_entry_witness :
  hd_keypaths legacy_empty_entry = [(pk1, [])] /\
  build_input master_fp legacy_empty_entry (txin_of 0xab 0) =
    Raise (IndexError "tuple index out of range").
Proof.
  split; [reflexivity|].
  apply (empty_key_entry master_fp legacy_empty_entry pk1 eq_refl).
Defined.

Lemma build_outputs_positional_witness :
  exists outs,
    build_outputs (network_of false) (psbt_of [legacy_mine] [out_p2pkh; out_wit])
      = Ok outs /\
    out_amount <$> outs = [50000; 900].
Proof.
  eexists. split; [reflexivity|].
  eapply (build_outputs_positional (network_of false)
            (psbt_of [legacy_mine] [out_p2pkh; out_wit])).
  reflexivity.
Defined.

Lemma build_outputs_supported_witness :
  supported_output out_data = false /\
  is_Ok (build_outputs (network_of false) with_data_output) = false.
Proof.
  split; [reflexivity|].
  rewrite (proj1 (build_outputs_supported (network_of false) with_data_output)).
  reflexivity.
Defined.

Lemma build_request_errors_witness :
  build_request (mainnet_client []) master_fp with_multisig =
    Raise (TypeError "Cannot sign multisig yet") /\
  builder_error (TypeError "Cannot sign multisig yet").
Proof.
  split; [reflexivity|].
  apply (build_request_errors (mainnet_client []) master_fp with_multisig).
  reflexivity.
Defined.

Lemma merge_again_overwrites_witness :
  Forall keyed [legacy_mine; legacy_other] /\
  (merge_loop master_fp
     (merge_loop master_fp [legacy_mine; legacy_other]
                 {| signatures := [sigA; sigB]; sig := None |}).2
     {| signatures := [sigC; sigA]; sig := None |}).2 =
  (merge_loop master_fp [legacy_mine; legacy_other]
              {| signatures := [sigC; sigA]; sig := None |}).2.
Proof.
  assert (Forall keyed [legacy_mine; legacy_other]) as Hkeyed.
  { repeat constructor; by eexists _, _, _, _. }
  split; [exact Hkeyed|].
  apply (merge_again_overwrites master_fp [legacy_mine; legacy_other]
           [sigA; sigB] [sigC; sigA] Hkeyed); simpl; lia.
Defined.

Lemma sign_tx_foreign_inputs_only_witness :
  Forall (foreign master_fp) (inputs foreign_only) /\
  (sign_tx (mainnet_client [sigA]) (fresh foreign_only)).1 =
    Ok [("psbt", psbt_serialize foreign_only)] /\
  the_psbt (sign_tx (mainnet_client [sigA]) (fresh foreign_only)).2 = foreign_only.
Proof.
  assert (Forall (foreign master_fp) (inputs foreign_only)) as Hforeign.
  { repeat constructor. exists pk2, other_fp, [44; 0; 1], []. by split. }
  split; [exact Hforeign|].
  eapply (sign_tx_foreign_inputs_only (mainnet_client [sigA]) (fresh foreign_only)
            root_xpub master_fp _ [sigA] []);
    [reflexivity|reflexivity|reflexivity|reflexivity|exact Hforeign|simpl; lia].
Defined.

Lemma sign_tx_success_witness :
  length (inputs three_inputs) = length (vin (tx three_inputs)) /\
  inputs three_inputs !! 1%nat = Some segwit_mine /\
  exists i',
    inputs (the_psbt (sign_tx (mainnet_client [sigA; sigB; sigC])
                              (fresh three_inputs)).2) !! 1%nat = Some i' /\
    partial_sigs i' !! pk1 = Some (sigB ++ [x01]).
Proof.
  split; [reflexivity|]. split; [reflexivity|].
  destruct (build_request (mainnet_client [sigA; sigB; sigC]) master_fp three_inputs)
    as [req|e] eqn:Hb; [|vm_compute in Hb; discriminate Hb].
  assert (get_xpub_fingerprint root_xpub = Ok master_fp) as Hf by reflexivity.
  destruct (sign_tx_success (mainnet_client [sigA; sigB; sigC]) (fresh three_inputs)
              root_xpub master_fp req [sigA; sigB; sigC] []
              eq_refl Hf Hb eq_refl eq_refl eq_refl)
    as (_ & Hinputs).
  destruct (Hinputs 1%nat segwit_mine sigB eq_refl eq_refl)
    as (pubkey & stored & path & i' & Hk & Hi' & Hown & _).
  injection Hk as <- <- <-.
  exists i'. split; [exact Hi'|]. by apply Hown.
Defined.

Lemma merge_one_keyless_witness :
  hd_keypaths keyless_input = [] /\
  merge_loop master_fp [keyless_input; legacy_mine]
             {| signatures := [sigA; sigB]; sig := None |} =
    (Raise (UnboundLocalError "sig"), [keyless_input; legacy_mine]) /\
  sigA ∈ [sigB; sigA; sigC] /\
  exists before after,
    [sigB; sigA; sigC] = before ++ sigA :: after /\
    (merge_one master_fp keyless_input
               {| signatures := [sigB; sigA; sigC]; sig := Some sigA |}).1 =
      Ok {| signatures := before ++ after; sig := Some sigA |}.
Proof.
  assert (sigA ∈ [sigB; sigA; sigC]) as Hin.
  { apply elem_of_cons. right. apply elem_of_cons. by left. }
  split; [reflexivity|]. split; [|split; [exact Hin|]].
  - apply (merge_one_keyless master_fp keyless_input
             {| signatures := []; sig := None |} eq_refl).
  - destruct (merge_one_keyless master_fp keyless_input
                {| signatures := [sigB; sigA; sigC]; sig := Some sigA |} eq_refl)
      as (_ & _ & _ & Hremove & _).
    destruct (Hremove sigA eq_refl Hin) as (before & after & Heq & _ & Hrun).
    by exists before, after.
Defined.

Lemma get_pubkey_at_path_behaviour_witness :
  parse_path "m/0" = Raise (ValueError "Invalid BIP32 path") /\
  get_pubkey_at_path (mainnet_client []) "m/0" (fresh one_input) =
    (Raise (ValueError "Invalid BIP32 path"), fresh one_input) /\
  parse_path "440" = Ok [4; 4; 0] /\
  get_pubkey_at_path (testnet_client []) "440" (fresh one_input) =
    (Ok [("xpub", "043587cf0001020304")],
     {| the_psbt := one_input; rpc_log := [EvGetPublicNode [4; 4; 0]] |}).
Proof.
  split; [reflexivity|]. split; [|split; [reflexivity|]].
  - apply (proj1 (get_pubkey_at_path_behaviour (mainnet_client []) "m/0"
                    (fresh one_input))). reflexivity.
  - destruct (get_pubkey_at_path_behaviour (testnet_client []) "440"
                (fresh one_input)) as [_ Hparsed].
    destruct (Hparsed [4; 4; 0] eq_refl) as [_ Hanswer].
    exact (Hanswer root_xpub eq_refl).
Defined.
